(** * Credit-card spend forecast: the notebook's data pipeline

    A shallow embedding of [notebooks/1_prophet_forecast.ipynb]: the monthly
    aggregation of transactions (section 4 of the notebook), the train/test
    split (section 6), the future frame and forecast table (section 8), the
    evaluation join and mean absolute error (section 10), and the order in
    which the cells run, with the exceptions they can raise.

    Tables are lists of records, in row order.  The [Amount] column is an
    integer column (int64): its sums wrap around.  Forecast estimates are
    float64 numbers, and the metric is computed in float64 arithmetic, every
    operation rounded to nearest.  The fitted model is a black box: a
    function from a date to its estimate. *)

From Stdlib Require Import String ZArith QArith Bool Lia.
From Stdlib Require Import SpecFloat.
From Stdlib Require Import List Sorted Permutation.
Import ListNotations.

Local Open Scope string_scope.
Local Open Scope list_scope.
Local Open Scope Z_scope.

(* ------------------------------------------------------------------ *)
(** ** Dates *)

Module Timestamp.

(** A calendar date.  Every date of the notebook is parsed with
    [format='%d-%b-%y'], so the time of day is always midnight. *)
Record t : Type := mk { year : Z; month : Z; day : Z }.

(** Chronological order: year, then month, then day. *)
Definition compare (a b : t) : comparison :=
  match year a ?= year b with
  | Eq => match month a ?= month b with
          | Eq => day a ?= day b
          | c => c
          end
  | c => c
  end.

Definition eqb (a b : t) : bool :=
  match compare a b with Eq => true | _ => false end.
Definition ltb (a b : t) : bool :=
  match compare a b with Lt => true | _ => false end.
Definition leb (a b : t) : bool :=
  match compare a b with Gt => false | _ => true end.

Definition lt (a b : t) : Prop := compare a b = Lt.
Definition le (a b : t) : Prop := compare a b <> Gt.

Definition is_leap (y : Z) : bool :=
  ((y mod 4 =? 0) && negb (y mod 100 =? 0)) || (y mod 400 =? 0).

(** [calendar.monthrange(year, month)[1]] *)
Definition days_in_month (y m : Z) : Z :=
  if m =? 2 then (if is_leap y then 29 else 28)
  else if (m =? 4) || (m =? 6) || (m =? 9) || (m =? 11) then 30
  else 31.

Definition valid (d : t) : Prop :=
  1 <= month d <= 12 /\ 1 <= day d <= days_in_month (year d) (month d).

(** The first day of a calendar month. *)
Definition is_month_start (d : t) : Prop :=
  1 <= month d <= 12 /\ day d = 1.

(** [.dt.to_period('M').dt.to_timestamp()]: the start of the month that
    contains the date. *)
Definition to_month_start (d : t) : t := mk (year d) (month d) 1.

(** [dt + relativedelta(months=k)] for [-12 <= k <= 12]: the month moves,
    the year follows when the month leaves 1..12, and the day is clamped
    to the length of the month that is reached. *)
Definition add_relativedelta_months (dt : t) (k : Z) : t :=
  let m := month dt + k in
  let ym := if 12 <? m then (year dt + 1, m - 12)
            else if m <? 1 then (year dt - 1, m + 12)
            else (year dt, m) in
  mk (fst ym) (snd ym) (Z.min (days_in_month (fst ym) (snd ym)) (day dt)).

(** [ts - pd.DateOffset(months=k)] *)
Definition sub_DateOffset_months (ts : t) (k : Z) : t :=
  add_relativedelta_months ts (- k).

(** pandas' [shift_month(stamp, months, day_opt='start')], the step of the
    ['MS'] (month start) frequency. *)
Definition shift_month_start (stamp : t) (months : Z) : t :=
  let dy := (month stamp + months) / 12 in
  let m := (month stamp + months) mod 12 in
  let md := if m =? 0 then (12, dy - 1) else (m, dy) in
  mk (year stamp + snd md) (fst md) 1.

(** [ts + MonthBegin(1)]: the first month start strictly after [ts]. *)
Definition add_MonthBegin (ts : t) : t := shift_month_start ts 1.

(** [MonthBegin().rollforward(ts)] *)
Definition rollforward (ts : t) : t :=
  if day ts =? 1 then ts else add_MonthBegin ts.

Fixpoint generate_range (cur : t) (periods : nat) : list t :=
  match periods with
  | O => []
  | S n => cur :: generate_range (add_MonthBegin cur) n
  end.

(** [pd.date_range(start=start, periods=periods, freq='MS')] *)
Definition date_range_MS (start : t) (periods : nat) : list t :=
  generate_range (rollforward start) periods.

(** The index of a month start on the line of months. *)
Definition month_index (d : t) : Z := year d * 12 + (month d - 1).

(** [Series.max()] of a datetime column; [None] stands for [NaT], the
    result on an empty column. *)
Fixpoint max (l : list t) : option t :=
  match l with
  | [] => None
  | d :: r => match max r with
              | None => Some d
              | Some m => Some (if ltb m d then d else m)
              end
  end.

Fixpoint min (l : list t) : option t :=
  match l with
  | [] => None
  | d :: r => match min r with
              | None => Some d
              | Some m => Some (if ltb d m then d else m)
              end
  end.

(** Comparisons of a column with a scalar that may be [NaT]: every
    comparison with [NaT] is [False]. *)
Definition leb_NaT (d : t) (c : option t) : bool :=
  match c with Some c => leb d c | None => false end.
Definition gtb_NaT (d : t) (c : option t) : bool :=
  match c with Some c => ltb c d | None => false end.

End Timestamp.

Abbreviation Timestamp := Timestamp.t.

(* ------------------------------------------------------------------ *)
(** ** Table operations of pandas *)

Module Pandas.

(** Two's complement wrap-around of a 64-bit signed integer. *)
Definition wrap64 (z : Z) : Z := (z + 2 ^ 63) mod 2 ^ 64 - 2 ^ 63.
Definition add64 (a b : Z) : Z := wrap64 (a + b).

(** [.sum()] of an int64 column. *)
Definition sum64 (l : list Z) : Z := fold_left add64 l 0.

(** Insertion of a key into a strictly increasing list of keys. *)
Fixpoint insert_key (k : Timestamp) (l : list Timestamp) : list Timestamp :=
  match l with
  | [] => [k]
  | h :: r => match Timestamp.compare k h with
              | Lt => k :: h :: r
              | Eq => h :: r
              | Gt => h :: insert_key k r
              end
  end.

(** The group keys of [groupby]: the distinct keys, sorted ascending
    ([sort=True] is the default). *)
Definition group_keys (keys : list Timestamp) : list Timestamp :=
  fold_right insert_key [] keys.

(** The rows of one group, in row order. *)
Definition group_rows (k : Timestamp) (rows : list (Timestamp * Z))
  : list (Timestamp * Z) :=
  filter (fun r => Timestamp.eqb (fst r) k) rows.

(** [rows.groupby(key)[value].sum().reset_index()]: one row per distinct
    key, keys ascending, each with the sum of its group. *)
Definition groupby_sum (rows : list (Timestamp * Z)) : list (Timestamp * Z) :=
  map (fun k => (k, sum64 (map snd (group_rows k rows))))
      (group_keys (map fst rows)).

End Pandas.

(* ------------------------------------------------------------------ *)
(** ** Floating-point numbers of numpy *)

Module Float64.

(** A [float64]: IEEE 754 binary64, with its zeros, infinities and NaN. *)
Definition t : Type := spec_float.

Definition prec : Z := 53.
Definition emax : Z := 1024.

Definition zero : t := S754_zero false.

(** The operations, each rounded to the nearest float64, ties to even. *)
Definition add (a b : t) : t := SFadd prec emax a b.
Definition sub (a b : t) : t := SFsub prec emax a b.
Definition div (a b : t) : t := SFdiv prec emax a b.
Definition abs (a : t) : t := SFabs a.

Definition eqb (a b : t) : bool := SFeqb a b.
Definition leb (a b : t) : bool := SFleb a b.

(** [np.float64(z)], [astype('float64')] of an integer: the nearest
    float64. *)
Definition of_int (z : Z) : t := binary_normalize prec emax z 0 false.

(** A float64 that is a number of the format: a zero or a finite value in
    range, neither NaN nor an infinity. *)
Definition is_number (v : t) : bool :=
  match v with
  | S754_zero _ => true
  | S754_finite _ m e => bounded prec emax m e
  | _ => false
  end.

Record number : Type := mkNumber { value : t; value_ok : is_number value = true }.



(** The rational a float64 stands for (0 for NaN and the infinities). *)
Definition to_Q (v : t) : Q :=
  match v with
  | S754_finite s m e =>
      ((if s then inject_Z (Z.neg m) else inject_Z (Z.pos m)) * (2 # 1) ^ e)%Q
  | _ => 0%Q
  end.

End Float64.

Module Numpy.

(** Eight running sums. *)
Definition eight : Type :=
  (Float64.t * Float64.t * Float64.t * Float64.t
   * Float64.t * Float64.t * Float64.t * Float64.t)%type.

(** [res += a[i]] over the items in order. *)
Definition accumulate (res : Float64.t) (a : list Float64.t) : Float64.t :=
  fold_left Float64.add a res.

(** The unrolled loop of [pairwise_sum]: [r[k] += a[i + k]] for one block
    of eight items after the other; what is left has fewer than eight
    items. *)
Fixpoint unrolled (r : eight) (a : list Float64.t) {struct a}
  : eight * list Float64.t :=
  match a with
  | a0 :: a1 :: a2 :: a3 :: a4 :: a5 :: a6 :: a7 :: rest =>
      let '(r0, r1, r2, r3, r4, r5, r6, r7) := r in
      unrolled (Float64.add r0 a0, Float64.add r1 a1, Float64.add r2 a2,
                Float64.add r3 a3, Float64.add r4 a4, Float64.add r5 a5,
                Float64.add r6 a6, Float64.add r7 a7) rest
  | _ => (r, a)
  end.

(** [pairwise_sum] on at most 128 items: fewer than eight are added up in
    order; otherwise the eight running sums start as the first eight items,
    take the following blocks of eight, are added up as
    [((r0 + r1) + (r2 + r3)) + ((r4 + r5) + (r6 + r7))], and the items left
    over are added in order. *)
Definition block_sum (a : list Float64.t) : Float64.t :=
  match a with
  | a0 :: a1 :: a2 :: a3 :: a4 :: a5 :: a6 :: a7 :: rest =>
      let '(r0, r1, r2, r3, r4, r5, r6, r7, rest') :=
        unrolled (a0, a1, a2, a3, a4, a5, a6, a7) rest in
      accumulate
        (Float64.add
           (Float64.add (Float64.add r0 r1) (Float64.add r2 r3))
           (Float64.add (Float64.add r4 r5) (Float64.add r6 r7)))
        rest'
  | _ => accumulate Float64.zero a
  end.

(** [pairwise_sum] on more than 128 items: the array is cut in two at
    [n2 = n / 2 - (n / 2) % 8] and the sums of the halves are added.
    [depth] bounds the number of cuts; the length of the array is enough. *)
Fixpoint pairwise_sum_rec (depth : nat) (a : list Float64.t) : Float64.t :=
  let n := length a in
  if (n <=? 128)%nat then block_sum a
  else
    match depth with
    | O => block_sum a
    | S depth' =>
        let n2 := (n / 2 - (n / 2) mod 8)%nat in
        Float64.add (pairwise_sum_rec depth' (firstn n2 a))
                    (pairwise_sum_rec depth' (skipn n2 a))
    end.

Definition pairwise_sum (a : list Float64.t) : Float64.t :=
  pairwise_sum_rec (length a) a.

(** [np.add.reduce(a)] on a contiguous float64 array: the pairwise sum,
    added to the identity 0.  (Later versions of numpy start from -0.0; on
    the arrays of absolute values summed here the result is the same.) *)
Definition add_reduce (a : list Float64.t) : Float64.t :=
  Float64.add Float64.zero (pairwise_sum a).

(** [a.mean()]: [np.add.reduce(a) / len(a)]. *)
Definition mean (a : list Float64.t) : Float64.t :=
  Float64.div (add_reduce a) (Float64.of_int (Z.of_nat (length a))).

End Numpy.

(* ------------------------------------------------------------------ *)
(** ** The notebook: aggregation and split *)

Record Transaction : Type := mkTransaction {
  Date : Timestamp;
  City : string;
  Exp_Type : string;
  Amount : Z
}.

(** A point of the monthly series: columns [ds] and [y]. *)
Record Point : Type := mkPoint { ds : Timestamp; y : Z }.

(** [df['YearMonth'] = df['Date'].dt.to_period('M').dt.to_timestamp()] *)
Definition YearMonth (r : Transaction) : Timestamp :=
  Timestamp.to_month_start (Date r).

(** [mask = (df['City'] == city) & (df['Exp Type'] == category)] *)
Definition mask (city category : string) (r : Transaction) : bool :=
  String.eqb (City r) city && String.eqb (Exp_Type r) category.

(** [df_city_cat = df.loc[mask, ['YearMonth', 'Amount']].copy()] *)
Definition df_city_cat (city category : string) (df : list Transaction)
  : list (Timestamp * Z) :=
  map (fun r => (YearMonth r, Amount r)) (filter (mask city category) df).

(** [monthly_spend = df_city_cat.groupby('YearMonth')['Amount'].sum()
                       .reset_index().rename(columns=...)] *)
Definition monthly_spend (city category : string) (df : list Transaction)
  : list Point :=
  map (fun kv => mkPoint (fst kv) (snd kv))
      (Pandas.groupby_sum (df_city_cat city category df)).

(** [train_cutoff = monthly_spend['ds'].max() - pd.DateOffset(months=6)] *)
Definition train_cutoff (series : list Point) : option Timestamp :=
  option_map (fun m => Timestamp.sub_DateOffset_months m 6)
             (Timestamp.max (map ds series)).

(** [train_df = monthly_spend[monthly_spend['ds'] <= train_cutoff]] *)
Definition train_df (series : list Point) : list Point :=
  filter (fun p => Timestamp.leb_NaT (ds p) (train_cutoff series)) series.

(** [test_df = monthly_spend[monthly_spend['ds'] > train_cutoff]] *)
Definition test_df (series : list Point) : list Point :=
  filter (fun p => Timestamp.gtb_NaT (ds p) (train_cutoff series)) series.

(* ------------------------------------------------------------------ *)
(** ** Exceptions and the cells' outputs *)

(** The outcome of a call: a value, or a raised exception, named by its
    Python class. *)
Inductive result (A : Type) : Type :=
| Ok (a : A)
| Raise (class : string).
Arguments Ok {A} a.
Arguments Raise {A} class.

Definition bind_result {A B : Type} (r : result A) (k : A -> result B)
  : result B :=
  match r with
  | Ok a => k a
  | Raise c => Raise c
  end.

(* ------------------------------------------------------------------ *)
(** ** The forecaster (Prophet), by its contract *)

Record Forecast : Type := mkForecast {
  fc_ds : Timestamp;
  yhat : Float64.number;
  yhat_lower : Float64.number;
  yhat_upper : Float64.number
}.

Module Prophet.

(** What fitting produces for a date: the point estimate and its bounds. *)
Record Estimate : Type := mkEstimate {
  est : Float64.number;
  est_lower : Float64.number;
  est_upper : Float64.number
}.

(** The fitting procedure is a black box: any function from the training
    series to an estimator. *)
Definition Engine : Type := list Point -> Timestamp -> Estimate.

Record Model : Type := mkModel {
  history_dates : list Timestamp;
  estimator : Timestamp -> Estimate
}.

(** [m.fit(train_df)]: refuses a frame with fewer than two rows
    ([ValueError: Dataframe has less than 2 non-NaN rows]); keeps the
    distinct training dates, sorted. *)
Definition fit (engine : Engine) (train : list Point) : result Model :=
  if (length train <? 2)%nat then Raise "ValueError"
  else Ok (mkModel (Pandas.group_keys (map ds train)) (engine train)).

(** The dates [make_future_dataframe] appends after the history:
    [dates = pd.date_range(start=last_date, periods=periods + 1, freq='MS');
     dates = dates[dates > last_date]; dates = dates[:periods]]. *)
Definition future_dates (last_date : Timestamp) (periods : nat)
  : list Timestamp :=
  firstn periods
    (filter (fun d => Timestamp.ltb last_date d)
            (Timestamp.date_range_MS last_date (S periods))).

(** [m.make_future_dataframe(periods=periods, freq='MS')]; a fitted model
    has a non-empty history. *)
Definition make_future_dataframe (m : Model) (periods : nat)
  : list Timestamp :=
  match Timestamp.max (history_dates m) with
  | Some last_date => history_dates m ++ future_dates last_date periods
  | None => history_dates m
  end.

(** [m.predict(future)]: one forecast record per date of the frame. *)
Definition predict (m : Model) (future : list Timestamp) : list Forecast :=
  map (fun d => let e := estimator m d in
                mkForecast d (est e) (est_lower e) (est_upper e))
      future.

End Prophet.

(** [future_only = forecast[forecast['ds'] > train_df['ds'].max()]] *)
Definition future_only (train : list Point) (forecast : list Forecast)
  : list Forecast :=
  filter (fun f => Timestamp.gtb_NaT (fc_ds f) (Timestamp.max (map ds train)))
         forecast.

(* ------------------------------------------------------------------ *)
(** ** The evaluator *)

(** A row of the merged frame: [yhat] is missing ([None], pandas' NaN) when
    no forecast row has the date.  [y] comes from the left frame, where it
    is an integer and never missing. *)
Record EvalRow : Type := mkEvalRow {
  e_ds : Timestamp;
  e_y : Z;
  e_yhat : option Float64.number
}.

(** The rows of the right frame whose key is [k], in row order. *)
Definition matches (k : Timestamp) (right : list (Timestamp * Float64.number))
  : list (Timestamp * Float64.number) :=
  filter (fun r => Timestamp.eqb (fst r) k) right.

(** What a left merge makes of one left row: kept once with a missing
    [yhat] when nothing matches, repeated once per match otherwise. *)
Definition merge_row (p : Point) (right : list (Timestamp * Float64.number))
  : list EvalRow :=
  match matches (ds p) right with
  | [] => [mkEvalRow (ds p) (y p) None]
  | ms => map (fun r => mkEvalRow (ds p) (y p) (Some (snd r))) ms
  end.

(** [left.merge(right, on='ds', how='left')]: the left rows in order. *)
Definition merge_left (left : list Point)
    (right : list (Timestamp * Float64.number)) : list EvalRow :=
  flat_map (fun p => merge_row p right) left.

(** [.dropna(subset=['y','yhat'])] *)
Definition dropna (rows : list EvalRow) : list EvalRow :=
  filter (fun r => match e_yhat r with Some _ => true | None => false end) rows.

(** [forecast[['ds','yhat']]] *)
Definition ds_yhat (forecast : list Forecast)
  : list (Timestamp * Float64.number) :=
  map (fun f => (fc_ds f, yhat f)) forecast.

(** [eval_df = test_df.merge(forecast[['ds','yhat']], on='ds', how='left')
    eval_df = eval_df.dropna(subset=['y','yhat'])] *)
Definition eval_df (test : list Point) (forecast : list Forecast)
  : list EvalRow :=
  dropna (merge_left test (ds_yhat forecast)).

Module Sklearn.

(** [np.average(a)] with no weights: [a.mean()]. *)
Definition average (a : list Float64.t) : Float64.t := Numpy.mean a.

(** [check_array]: refuses an array with a missing value and an array
    with no sample, both with [ValueError]. *)
Fixpoint values {A : Type} (a : list (option A)) : option (list A) :=
  match a with
  | [] => Some []
  | Some v :: r => option_map (cons v) (values r)
  | None :: _ => None
  end.

Definition check_array {A : Type} (a : list (option A)) : result (list A) :=
  match values a with
  | None => Raise "ValueError"
  | Some [] => Raise "ValueError"
  | Some vs => Ok vs
  end.

(** [mean_absolute_error(y_true, y_pred)] on an int64 column and a float64
    column: the two arrays are validated (same length, no missing value,
    at least one sample), the integers become float64, then
    [np.average(np.abs(y_pred - y_true))].  (The average the library then
    takes over the single output column leaves the value as it is.) *)
Definition mean_absolute_error (y_true : list (option Z))
    (y_pred : list (option Float64.number)) : result Float64.t :=
  if negb (length y_true =? length y_pred)%nat then Raise "ValueError"
  else
    bind_result (check_array y_true) (fun ts =>
    bind_result (check_array y_pred) (fun ps =>
    let y_true := map Float64.of_int ts in
    let y_pred := map Float64.value ps in
    Ok (average (map (fun tp => Float64.abs (Float64.sub (snd tp) (fst tp)))
                     (combine y_true y_pred))))).

End Sklearn.

(** [eval_df['y']] and [eval_df['yhat']], as arrays. *)
Definition col_y (rows : list EvalRow) : list (option Z) :=
  map (fun r => Some (e_y r)) rows.
Definition col_yhat (rows : list EvalRow) : list (option Float64.number) :=
  map e_yhat rows.

(** [mae = mean_absolute_error(eval_df['y'], eval_df['yhat'])] *)
Definition mae (rows : list EvalRow) : result Float64.t :=
  Sklearn.mean_absolute_error (col_y rows) (col_yhat rows).

(* ------------------------------------------------------------------ *)
(** ** The cells, run in order *)

(** What a cell leaves on the page or on disk. *)
Inductive output : Type :=
| Out_text (line : string)
| Out_transactions (rows : list Transaction)
| Out_points (rows : list Point)
| Out_range (first last : option Timestamp)
| Out_forecast (rows : list Forecast)
| Out_mae (value : Float64.t)
| Out_eval (rows : list EvalRow)
| Out_dates (dates : list Timestamp)
| Out_figure (title : string)
| Out_file (path : string).

(** What the surroundings decide: whether creating the assets directory,
    drawing a figure or writing an image file fails, and with which
    exception class. *)
Record Env : Type := mkEnv {
  makedirs_error : option string;
  plot_error : string -> option string;
  savefig_error : string -> option string
}.

(** A computation of the notebook: it appends to the outputs produced so
    far and either returns or raises.  Nothing in the notebook catches an
    exception, so a raise ends the run; the outputs already produced stay. *)
Definition Cell (A : Type) : Type := list output -> list output * result A.

Definition ret {A : Type} (a : A) : Cell A := fun outs => (outs, Ok a).

Definition bind {A B : Type} (c : Cell A) (k : A -> Cell B) : Cell B :=
  fun outs =>
    match c outs with
    | (outs', Ok a) => k a outs'
    | (outs', Raise e) => (outs', Raise e)
    end.

Definition emit (o : output) : Cell unit := fun outs => (outs ++ [o], Ok tt).

Definition lift {A : Type} (r : result A) : Cell A := fun outs => (outs, r).

(** A step that the surroundings can make fail. *)
Definition attempt (failure : option string) (c : Cell unit) : Cell unit :=
  match failure with
  | Some class => lift (Raise class)
  | None => c
  end.

Declare Scope cell_scope.
Delimit Scope cell_scope with cell.
Notation "x <- c1 ;; c2" := (bind c1 (fun x => c2))
  (at level 61, c1 at next level, right associativity) : cell_scope.
Notation "c1 ;; c2" := (bind c1 (fun _ => c2))
  (at level 61, right associativity) : cell_scope.

(** Drawing a figure: [plt.plot], [m.plot], [m.plot_components]. *)
Definition draw (env : Env) (title : string) : Cell unit :=
  attempt (plot_error env title) (ret tt).

(** [plt.show()] *)
Definition show (title : string) : Cell unit := emit (Out_figure title).

(** [plt.savefig(path)], [fig.savefig(path)] *)
Definition savefig (env : Env) (path : string) : Cell unit :=
  attempt (savefig_error env path) (emit (Out_file path)).

Definition monthly_spend_plot_png : string :=
  "../notebooks/assets/monthly_spend_plot.png".
Definition prophet_forecast_png : string :=
  "../notebooks/assets/prophet_forecast.png".
Definition prophet_components_png : string :=
  "../notebooks/assets/prophet_components.png".

(** The notebook from the loaded frame on (sections 2 to 11), statement by
    statement.  [df] is the frame after [read_csv] and [to_datetime].  The
    inspection cells of sections 2 and 3 only print; a printed or displayed
    frame is kept whole, and a printed number is kept as the float64 it is
    ([{mae:.2f}] and [.round(2)] only shorten what is shown). *)
Definition notebook (env : Env) (engine : Prophet.Engine)
    (city category : string) (df : list Transaction) : Cell unit :=
  ((* 2, 3. load and inspect *)
   emit (Out_text "Raw data sample:") ;;
   emit (Out_transactions (firstn 5 df)) ;;
   emit (Out_text "Dataset Info:") ;;
   (* 4. aggregate *)
   let monthly_spend := monthly_spend city category df in
   emit (Out_text "Monthly spend DataFrame") ;;
   emit (Out_points (firstn 10 monthly_spend)) ;;
   (* 5. historical plot *)
   attempt (makedirs_error env) (ret tt) ;;
   draw env "Monthly Spend" ;;
   show "Monthly Spend" ;;
   savefig env monthly_spend_plot_png ;;
   show "Monthly Spend" ;;
   (* 6. split *)
   let train_df := train_df monthly_spend in
   let test_df := test_df monthly_spend in
   emit (Out_range (Timestamp.min (map ds train_df))
                   (Timestamp.max (map ds train_df))) ;;
   emit (Out_range (Timestamp.min (map ds test_df))
                   (Timestamp.max (map ds test_df))) ;;
   emit (Out_text "Train DF (first 5 rows):") ;;
   emit (Out_points (firstn 5 train_df)) ;;
   emit (Out_text "Test DF (first 5 rows):") ;;
   emit (Out_points (firstn 5 test_df)) ;;
   (* 7. fit *)
   m <- lift (Prophet.fit engine train_df) ;;
   (* 8. forecast *)
   let future := Prophet.make_future_dataframe m 6 in
   let forecast := Prophet.predict m future in
   let future_only := future_only train_df forecast in
   emit (Out_text "Forecasted values (last 6 months):") ;;
   emit (Out_forecast future_only) ;;
   (* 9. forecast plots *)
   draw env "Prophet Forecast" ;;
   savefig env prophet_forecast_png ;;
   show "Prophet Forecast" ;;
   draw env "Actual vs Forecast" ;;
   show "Actual vs Forecast" ;;
   (* 10. evaluate *)
   let eval_df := eval_df test_df forecast in
   mae <- lift (mae eval_df) ;;
   emit (Out_mae mae) ;;
   emit (Out_text "Actual vs Forecast (Test Period):") ;;
   emit (Out_eval eval_df) ;;
   (* 11. components *)
   draw env "Prophet Components" ;;
   savefig env prophet_components_png ;;
   show "Prophet Components" ;;
   (* end of notebook *)
   emit (Out_text "Test-period dates (test_df['ds']):") ;;
   emit (Out_dates (map ds test_df)) ;;
   emit (Out_text "Forecasted dates (forecast['ds'] > train cutoff):") ;;
   emit (Out_dates (map fc_ds future_only)))%cell.

(** A run from an empty page. *)
Definition run (env : Env) (engine : Prophet.Engine)
    (city category : string) (df : list Transaction)
  : list output * result unit :=
  notebook env engine city category df [].

(** Surroundings in which every directory, figure and file operation
    succeeds. *)
Definition env_ok : Env :=
  mkEnv None (fun _ => None) (fun _ => None).

(** The four figures the notebook draws and the three image files it
    writes, in order. *)
Definition plot_titles : list string :=
  ["Monthly Spend"; "Prophet Forecast"; "Actual vs Forecast";
   "Prophet Components"].
Definition image_files : list string :=
  [monthly_spend_plot_png; prophet_forecast_png; prophet_components_png].

(** Drawing a figure, writing an image file fails in the surroundings. *)
Definition plot_fails (env : Env) (title : string) : Prop :=
  plot_error env title <> None.
Definition save_fails (env : Env) (path : string) : Prop :=
  savefig_error env path <> None.

(* ------------------------------------------------------------------ *)
(** ** The specification's own words, for comparison with the code *)

Module Spec.

(** Evaluation record: {date, actual, predicted}. *)
Record EvaluationRecord : Type := mkRecord {
  date : Timestamp;
  actual : Z;
  predicted : Float64.number
}.

(** The inner join of holdout actuals and forecast estimates on date:
    one record per pair of a holdout point and a forecast record with the
    same date, in holdout order. *)
Definition inner_join (holdout : list Point) (forecast : list Forecast)
  : list EvaluationRecord :=
  flat_map (fun p =>
              map (fun f => mkRecord (ds p) (y p) (yhat f))
                  (filter (fun f => Timestamp.eqb (fc_ds f) (ds p)) forecast))
           holdout.

(** |actual - predicted| of a record, as the numbers they stand for. *)
Definition absolute_error (r : EvaluationRecord) : Q :=
  let d := (inject_Z (actual r) - Float64.to_Q (Float64.value (predicted r)))%Q in
  if Qle_bool 0 d then d else (- d)%Q.

(** Mean of |actual - predicted| over the records. *)
Definition mean_absolute_error (records : list EvaluationRecord) : Q :=
  (fold_right Qplus 0 (map absolute_error records)
   / inject_Z (Z.of_nat (length records)))%Q.

(** A run of month starts, each one month after the one before. *)
Inductive consecutive_month_starts : list Timestamp -> Prop :=
| consecutive_one : forall d,
    Timestamp.is_month_start d -> consecutive_month_starts [d]
| consecutive_cons : forall d e r,
    Timestamp.is_month_start d ->
    Timestamp.month_index e = Timestamp.month_index d + 1 ->
    consecutive_month_starts (e :: r) ->
    consecutive_month_starts (d :: e :: r).

End Spec.

(** The merged row of an evaluation record. *)
Definition row_of_record (r : Spec.EvaluationRecord) : EvalRow :=
  mkEvalRow (Spec.date r) (Spec.actual r) (Some (Spec.predicted r)).

(* ------------------------------------------------------------------ *)
(** ** Notions used to state the properties *)

(** The exact sum of a column, before any wrap-around. *)
Definition exact_sum (l : list Z) : Z := fold_right Z.add 0 l.

(** The exact total of the group of key [k]. *)
Definition group_total (k : Timestamp) (rows : list (Timestamp * Z)) : Z :=
  exact_sum (map snd (Pandas.group_rows k rows)).

(** The amounts of the transactions a filter selects. *)
Definition matching_amounts (city category : string) (df : list Transaction)
  : list Z :=
  map Amount (filter (mask city category) df).

(** The transactions that contribute to a point: the selected ones of its
    month. *)
Definition contributing (city category : string) (df : list Transaction)
    (p : Point) : list Transaction :=
  filter (fun r => Timestamp.eqb (YearMonth r) (ds p))
         (filter (mask city category) df).

(** [l] is made of month starts, at the given distances in months after
    the date [d]. *)
Definition following (d : Timestamp) (offsets : list nat) (l : list Timestamp)
  : Prop :=
  Forall Timestamp.is_month_start l
  /\ map Timestamp.month_index l
     = map (fun i => Timestamp.month_index d + Z.of_nat i) offsets.

Fixpoint total (l : list nat) : nat :=
  match l with
  | [] => 0%nat
  | n :: r => (n + total r)%nat
  end.

(** The absolute errors |actual - predicted| of the evaluation records, in
    float64. *)
Definition abs_errors (records : list Spec.EvaluationRecord) : list Float64.t :=
  map (fun r => Float64.abs (Float64.sub (Float64.of_int (Spec.actual r))
                                         (Float64.value (Spec.predicted r))))
      records.


(* ------------------------------------------------------------------ *)
(** ** Sample data *)

Module Examples.

Definition bengaluru : string := "Bengaluru, India".
Definition food : string := "Food".

Definition tx (y m d : Z) (city category : string) (amount : Z) : Transaction :=
  mkTransaction (Timestamp.mk y m d) city category amount.

(** Fourteen months of food spend in Bengaluru, 100, 110, ..., 230, with
    rows of another city, another category and another spelling in
    between. *)
Definition df14 : list Transaction :=
  [ tx 2014 1 14 bengaluru food 60;  tx 2014 1 20 bengaluru food 40;
    tx 2014 2 3 bengaluru food 110;  tx 2014 2 9 "Delhi, India" food 999;
    tx 2014 3 30 bengaluru food 120; tx 2014 4 1 bengaluru food 130;
    tx 2014 5 17 bengaluru food 140; tx 2014 5 18 bengaluru "Fuel" 77;
    tx 2014 6 6 bengaluru food 150;  tx 2014 7 7 bengaluru food 160;
    tx 2014 8 8 bengaluru food 170;  tx 2014 9 9 bengaluru food 180;
    tx 2014 10 10 bengaluru food 190; tx 2014 11 11 bengaluru food 200;
    tx 2014 12 12 bengaluru food 210; tx 2015 1 13 bengaluru food 220;
    tx 2015 2 28 bengaluru food 230; tx 2014 6 6 "bengaluru, india" food 5 ].

(** Transactions with missing months: two early months and a late one. *)
Definition df_gaps : list Transaction :=
  [ tx 2014 1 14 bengaluru food 100; tx 2014 2 3 bengaluru food 110;
    tx 2015 12 25 bengaluru food 120 ].

(** A monthly series with missing months, all in one year. *)
Definition gapped_series : list Point :=
  [ mkPoint (Timestamp.mk 2014 1 1) 100;
    mkPoint (Timestamp.mk 2014 2 1) 110;
    mkPoint (Timestamp.mk 2014 12 1) 120 ].

Definition number_1 : Float64.number :=
  Float64.mkNumber (Float64.of_int 1) eq_refl.
Definition number_2 : Float64.number :=
  Float64.mkNumber (Float64.of_int 2) eq_refl.
Definition number_100 : Float64.number :=
  Float64.mkNumber (Float64.of_int 100) eq_refl.
Definition number_150 : Float64.number :=
  Float64.mkNumber (Float64.of_int 150) eq_refl.
Definition number_200 : Float64.number :=
  Float64.mkNumber (Float64.of_int 200) eq_refl.


(** 0.1, the float64 nearest to one tenth. *)
Definition tenth : Float64.t := S754_finite false 7205759403792794 (-56).

(** 2^-53, half the distance from 1 to the next float64. *)
Definition half_step : Float64.t := S754_finite false 4503599627370496 (-105).

(** A forecaster that always answers 150, between 100 and 200. *)
Definition flat_engine : Prophet.Engine :=
  fun _ _ => Prophet.mkEstimate number_150 number_100 number_200.

(** Surroundings in which only the forecast plot cannot be written. *)
Definition env_forecast_png_unwritable : Env :=
  mkEnv None (fun _ => None)
        (fun path => if String.eqb path prophet_forecast_png
                     then Some "PermissionError" else None).

Definition series14 : list Point := monthly_spend bengaluru food df14.

(** The forecast table the notebook builds from a series. *)
Definition forecast_of (series : list Point) : list Forecast :=
  match Prophet.fit flat_engine (train_df series) with
  | Ok m => Prophet.predict m (Prophet.make_future_dataframe m 6)
  | Raise _ => []
  end.

Definition forecast14 : list Forecast := forecast_of series14.

Definition series_gaps : list Point := monthly_spend bengaluru food df_gaps.
Definition forecast_gaps : list Forecast := forecast_of series_gaps.


(** Surroundings in which only one image file cannot be written. *)
Definition env_unwritable (file : string) : Env :=
  mkEnv None (fun _ => None)
        (fun path => if String.eqb path file
                     then Some "PermissionError" else None).

End Examples.

(* ------------------------------------------------------------------ *)
(** ** Proof steps for runs of the notebook *)

(** A run, one cell after the other. *)
Ltac run_cells :=
  cbv [run notebook bind emit lift ret attempt draw show savefig app fst snd].

(** An output of one kind is not in a list of outputs of other kinds. *)
Ltac absent_output :=
  intros;
  let H := fresh in
  intro H; cbn [In] in H;
  repeat (destruct H as [H|H]; [discriminate H|]); exact H.

(** Assumptions on the surroundings that contradict each other. *)
Ltac oracle_contradiction :=
  unfold plot_titles, image_files in *;
  repeat match goal with
         | H : forall title, In title _ -> _ |- _ =>
             pose proof (H "Monthly Spend" ltac:(cbn; tauto));
             pose proof (H "Prophet Forecast" ltac:(cbn; tauto));
             pose proof (H "Actual vs Forecast" ltac:(cbn; tauto));
             pose proof (H "Prophet Components" ltac:(cbn; tauto));
             clear H
         | H : _ \/ _ |- _ => destruct H
         | H : exists _, _ |- _ => destruct H
         | H : _ /\ _ |- _ => destruct H
         | H : In _ (_ :: _) |- _ => cbn [In] in H
         | H : In _ [] |- _ => destruct H
         | H : False |- _ => destruct H
         | H : plot_fails _ _ |- _ => unfold plot_fails in H
         | H : save_fails _ _ |- _ => unfold save_fails in H
         | H : _ = _ |- _ => progress subst
         end;
  congruence.

(** What holds of a run that is known up to its end: a conjunction of
    facts on its exception and its outputs, each under assumptions on the
    surroundings. *)
Ltac settle :=
  cbv beta iota; cbn [fst snd];
  repeat match goal with |- _ /\ _ => split end;
  intros;
  first [ solve [oracle_contradiction]
        | repeat match goal with
                 | H : Some _ = Some _ |- _ => injection H as H; subst
                 | H : Ok _ = Ok _ |- _ => injection H as H; subst
                 | H : ?x = Ok _, E : ?x = Ok _ |- _ => rewrite E in H
                 end;
          repeat match goal with |- _ /\ _ => split end;
          intros;
          first [ solve [eauto]
                | solve [congruence]
                | solve [cbn [In]; tauto]
                | solve [let H := fresh in
                         intro H; cbn [In] in H;
                         repeat (destruct H as [H|H]; [discriminate H|]);
                         exact H] ] ].

(** A list of distinct concrete values. *)
Ltac distinct_values :=
  repeat (apply NoDup_cons; [absent_output|]); apply NoDup_nil.

(* ------------------------------------------------------------------ *)
(** ** Further notions and sample data *)

(** The evaluation row of a holdout point under a fitted model. *)
Definition predicted_row (m : Prophet.Model) (p : Point) : EvalRow :=
  mkEvalRow (ds p) (y p) (Some (Prophet.est (Prophet.estimator m (ds p)))).

(** Whether a date is in a frame of dates. *)
Definition has_date (dates : list Timestamp) (d : Timestamp) : bool :=
  existsb (Timestamp.eqb d) dates.

(** The image files a run has written, in order. *)
Definition files_written (outs : list output) : list string :=
  flat_map (fun o => match o with Out_file path => [path] | _ => [] end) outs.

(** The mean absolute errors a run has printed. *)
Definition reported_mae (outs : list output) : list Float64.t :=
  flat_map (fun o => match o with Out_mae value => [value] | _ => [] end) outs.

Module MoreExamples.
Import Examples.

(** The model the flat forecaster gives on the fourteen months. *)
Definition model14 : Prophet.Model :=
  Prophet.mkModel (map ds (train_df series14)) (flat_engine (train_df series14)).

(** Three consecutive months of food spend in Bengaluru. *)
Definition df_short : list Transaction :=
  [ tx 2014 11 5 bengaluru food 10; tx 2014 12 24 bengaluru food 20;
    tx 2015 1 2 bengaluru food 30 ].

End MoreExamples.

(** A run in surroundings where nothing fails, one cell after the other. *)
Ltac run_cells_env_ok :=
  cbv [run notebook bind emit lift ret attempt draw show savefig app fst snd
       env_ok makedirs_error plot_error savefig_error].

(* ================================================================== *)
(** * Properties *)

(** ** Order of dates *)

Module TimestampFacts.
Import Timestamp.

Lemma compare_eq_iff (a b : t) : compare a b = Eq <-> a = b.
Proof.
  destruct a as [ya ma da], b as [yb mb db]; unfold compare; simpl.
  split.
  - destruct (Z.compare_spec ya yb); try discriminate.
    destruct (Z.compare_spec ma mb); try discriminate.
    destruct (Z.compare_spec da db); try discriminate.
    intros _; congruence.
  - intros H; injection H as -> -> ->.
    now rewrite !Z.compare_refl.
Qed.

Lemma compare_antisym (a b : t) : compare b a = CompOpp (compare a b).
Proof.
  destruct a as [ya ma da], b as [yb mb db]; unfold compare; simpl.
  rewrite (Z.compare_antisym ya yb), (Z.compare_antisym ma mb),
    (Z.compare_antisym da db).
  destruct (ya ?= yb); simpl; auto.
  destruct (ma ?= mb); simpl; auto.
Qed.

Lemma compare_refl (a : t) : compare a a = Eq.
Proof. now apply compare_eq_iff. Qed.

Lemma lt_trans (a b c : t) : lt a b -> lt b c -> lt a c.
Proof.
  destruct a as [ya ma da], b as [yb mb db], c as [yc mc dc].
  unfold lt, compare; simpl.
  destruct (Z.compare_spec ya yb); try discriminate;
  destruct (Z.compare_spec yb yc); try discriminate;
  destruct (Z.compare_spec ya yc); try lia; try reflexivity;
  destruct (Z.compare_spec ma mb); try discriminate;
  destruct (Z.compare_spec mb mc); try discriminate;
  destruct (Z.compare_spec ma mc); try lia; try reflexivity;
  destruct (Z.compare_spec da db); try discriminate;
  destruct (Z.compare_spec db dc); try discriminate;
  destruct (Z.compare_spec da dc); try lia; reflexivity.
Qed.

Lemma lt_irrefl (a : t) : ~ lt a a.
Proof. unfold lt; rewrite compare_refl; discriminate. Qed.

Lemma eqb_eq (a b : t) : eqb a b = true <-> a = b.
Proof.
  unfold eqb; rewrite <- compare_eq_iff.
  destruct (compare a b); split; congruence.
Qed.

Lemma eqb_refl (a : t) : eqb a a = true.
Proof. now apply eqb_eq. Qed.

Lemma eqb_sym (a b : t) : eqb a b = eqb b a.
Proof.
  unfold eqb; rewrite (compare_antisym a b); now destruct (compare a b).
Qed.

Lemma ltb_lt (a b : t) : ltb a b = true <-> lt a b.
Proof. unfold ltb, lt; destruct (compare a b); split; congruence. Qed.

Lemma leb_le (a b : t) : leb a b = true <-> le a b.
Proof. unfold leb, le; destruct (compare a b); split; congruence. Qed.

(** [a <= c] and [a > c] exclude each other and one of them holds. *)
Lemma leb_negb_ltb (a c : t) : leb a c = negb (ltb c a).
Proof.
  unfold leb, ltb; rewrite (compare_antisym a c); now destruct (compare a c).
Qed.

Lemma le_lt_trans (a b c : t) : le a b -> lt b c -> lt a c.
Proof.
  unfold le; intros Hab Hbc.
  destruct (compare a b) eqn:E; try congruence.
  - apply compare_eq_iff in E; now subst.
  - now apply lt_trans with b.
Qed.

Lemma lt_le_incl (a b : t) : lt a b -> le a b.
Proof. unfold lt, le; congruence. Qed.

Lemma le_refl (a : t) : le a a.
Proof. unfold le; rewrite compare_refl; discriminate. Qed.

Lemma not_lt_le (a b : t) : ~ lt b a <-> le a b.
Proof.
  unfold lt, le; rewrite (compare_antisym a b).
  destruct (compare a b); simpl; split; congruence.
Qed.

(** On month starts the order is the order of the month indices. *)
Lemma compare_month_index (a b : t) :
  is_month_start a -> is_month_start b ->
  compare a b = (month_index a ?= month_index b).
Proof.
  destruct a as [ya ma da], b as [yb mb db].
  unfold is_month_start, compare, month_index; simpl.
  intros [Ha ->] [Hb ->].
  destruct (Z.compare_spec ya yb);
    destruct (Z.compare_spec ma mb);
    destruct (Z.compare_spec (ya * 12 + (ma - 1)) (yb * 12 + (mb - 1)));
    try reflexivity; lia.
Qed.

Lemma month_index_inj (a b : t) :
  is_month_start a -> is_month_start b ->
  month_index a = month_index b -> a = b.
Proof.
  intros Ha Hb H. apply compare_eq_iff.
  rewrite compare_month_index, H by assumption. apply Z.compare_refl.
Qed.

Lemma to_month_start_is_month_start (d : t) :
  1 <= month d <= 12 -> is_month_start (to_month_start d).
Proof. unfold is_month_start; simpl; auto. Qed.

Lemma days_in_month_ge_28 (y m : Z) : 28 <= days_in_month y m.
Proof.
  unfold days_in_month.
  destruct (m =? 2); [destruct (is_leap y); lia|].
  destruct ((m =? 4) || (m =? 6) || (m =? 9) || (m =? 11)); lia.
Qed.

(** Six months before a month start: a month start, six months down. *)
Lemma sub_six_months (d : t) :
  is_month_start d ->
  is_month_start (sub_DateOffset_months d 6) /\
  month_index (sub_DateOffset_months d 6) = month_index d - 6.
Proof.
  destruct d as [yd md dd]; unfold is_month_start; simpl.
  intros [Hm ->].
  unfold sub_DateOffset_months, add_relativedelta_months, month_index; simpl.
  destruct (Z.ltb_spec 12 (md + -6)); [lia|].
  destruct (Z.ltb_spec (md + -6) 1); simpl;
    (split; [split; [lia|]|lia]).
  - pose proof (days_in_month_ge_28 (yd - 1) (md + -6 + 12)); lia.
  - pose proof (days_in_month_ge_28 yd (md + -6)); lia.
Qed.

(** Six months before a date of a proper month: the month is six months
    down the line of months, the day is kept unless the month reached is
    shorter, and the date is strictly earlier. *)
Lemma sub_six_months_calendar (d : t) :
  1 <= month d <= 12 ->
  1 <= month (sub_DateOffset_months d 6) <= 12
  /\ month_index (sub_DateOffset_months d 6) = month_index d - 6
  /\ day (sub_DateOffset_months d 6)
     = Z.min (days_in_month (year (sub_DateOffset_months d 6))
                            (month (sub_DateOffset_months d 6)))
             (day d)
  /\ lt (sub_DateOffset_months d 6) d.
Proof.
  destruct d as [yd md dd]; simpl; intros Hm.
  unfold sub_DateOffset_months, add_relativedelta_months, month_index, lt,
    compare; simpl.
  destruct (Z.ltb_spec 12 (md + -6)); [lia|].
  destruct (Z.ltb_spec (md + -6) 1); simpl.
  - repeat split; try lia.
    destruct (Z.compare_spec (yd - 1) yd); try lia. reflexivity.
  - repeat split; try lia.
    rewrite Z.compare_refl.
    destruct (Z.compare_spec (md + -6) md); try lia. reflexivity.
Qed.

(** The month start after a date of a proper month. *)
Lemma add_MonthBegin_index (d : t) :
  1 <= month d <= 12 ->
  is_month_start (add_MonthBegin d) /\
  month_index (add_MonthBegin d) = month_index d + 1.
Proof.
  destruct d as [yd md dd]; simpl; intros Hm.
  unfold add_MonthBegin, shift_month_start, is_month_start, month_index; simpl.
  destruct (Z.eqb_spec ((md + 1) mod 12) 0); simpl;
    Z.div_mod_to_equations; lia.
Qed.

End TimestampFacts.

(* ------------------------------------------------------------------ *)
(** ** The aggregator *)

Module PandasFacts.
Import Pandas.

Lemma wrap64_add_l (a b : Z) : wrap64 (wrap64 a + b) = wrap64 (a + b).
Proof.
  unfold wrap64. f_equal.
  replace ((a + 2 ^ 63) mod 2 ^ 64 - 2 ^ 63 + b + 2 ^ 63)
    with ((a + 2 ^ 63) mod 2 ^ 64 + b) by ring.
  replace (a + b + 2 ^ 63) with ((a + 2 ^ 63) + b) by ring.
  now rewrite Zplus_mod_idemp_l.
Qed.

Lemma wrap64_add_r (a b : Z) : wrap64 (a + wrap64 b) = wrap64 (a + b).
Proof. rewrite (Z.add_comm a), wrap64_add_l. f_equal; ring. Qed.

Lemma wrap64_small (z : Z) : - 2 ^ 63 <= z < 2 ^ 63 -> wrap64 z = z.
Proof. intros H; unfold wrap64; rewrite Z.mod_small; lia. Qed.

Lemma fold_add64 (l : list Z) (a : Z) :
  fold_left add64 l (wrap64 a) = wrap64 (a + exact_sum l).
Proof.
  revert a; induction l as [|x l IH]; intros a; simpl.
  - f_equal; ring.
  - change (add64 (wrap64 a) x) with (wrap64 (wrap64 a + x)).
    rewrite wrap64_add_l, IH. f_equal; ring.
Qed.

(** An int64 sum is the exact sum, wrapped once. *)
Lemma sum64_exact_sum (l : list Z) : sum64 l = wrap64 (exact_sum l).
Proof.
  unfold sum64. change 0 with (wrap64 0) at 1. now rewrite fold_add64.
Qed.

Lemma wrap64_exact_sum_map_wrap {A : Type} (f : A -> Z) (l : list A) :
  wrap64 (exact_sum (map (fun a => wrap64 (f a)) l)) = wrap64 (exact_sum (map f l)).
Proof.
  induction l as [|a l IH]; simpl; [reflexivity|].
  rewrite wrap64_add_l, <- wrap64_add_r, IH, wrap64_add_r. reflexivity.
Qed.

(** Keys: insertion keeps a strictly increasing list strictly increasing. *)
Lemma insert_key_In (k x : Timestamp) (l : list Timestamp) :
  In x (insert_key k l) <-> x = k \/ In x l.
Proof.
  induction l as [|h r IH]; simpl.
  - intuition.
  - destruct (Timestamp.compare k h) eqn:E; simpl.
    + apply TimestampFacts.compare_eq_iff in E; subst. intuition.
    + intuition.
    + rewrite IH. intuition.
Qed.

Lemma insert_key_sorted (k : Timestamp) (l : list Timestamp) :
  StronglySorted Timestamp.lt l -> StronglySorted Timestamp.lt (insert_key k l).
Proof.
  induction 1 as [|h r Hs IH Hh]; simpl.
  - repeat constructor.
  - destruct (Timestamp.compare k h) eqn:E.
    + now constructor.
    + constructor; [now constructor|].
      constructor; [exact E|].
      rewrite Forall_forall in *; intros x Hx.
      apply TimestampFacts.lt_trans with h; auto.
    + constructor; [exact IH|].
      rewrite Forall_forall in *; intros x Hx.
      apply insert_key_In in Hx as [->|Hx]; auto.
      unfold Timestamp.lt. rewrite (TimestampFacts.compare_antisym k h), E.
      reflexivity.
Qed.

Lemma group_keys_sorted (keys : list Timestamp) :
  StronglySorted Timestamp.lt (group_keys keys).
Proof.
  induction keys as [|k keys IH]; simpl.
  - constructor.
  - now apply insert_key_sorted.
Qed.

Lemma group_keys_In (keys : list Timestamp) (x : Timestamp) :
  In x (group_keys keys) <-> In x keys.
Proof.
  induction keys as [|k keys IH]; simpl.
  - tauto.
  - rewrite insert_key_In, IH. intuition.
Qed.

Lemma sorted_NoDup (l : list Timestamp) :
  StronglySorted Timestamp.lt l -> NoDup l.
Proof.
  induction 1 as [|h r Hs IH Hh]; constructor; auto.
  intros Hin. rewrite Forall_forall in Hh.
  exact (TimestampFacts.lt_irrefl h (Hh h Hin)).
Qed.

Lemma group_keys_NoDup (keys : list Timestamp) : NoDup (group_keys keys).
Proof. apply sorted_NoDup, group_keys_sorted. Qed.

Lemma exact_sum_indicator (k0 : Timestamp) (v : Z) (keys : list Timestamp) :
  NoDup keys -> In k0 keys ->
  exact_sum (map (fun k => if Timestamp.eqb k0 k then v else 0) keys) = v.
Proof.
  induction 1 as [|k keys Hk Hnd IH]; simpl; [tauto|].
  intros [->|Hin].
  - rewrite TimestampFacts.eqb_refl.
    assert (exact_sum (map (fun k => if Timestamp.eqb k0 k then v else 0) keys) = 0)
      as ->; [|ring].
    clear IH Hnd. induction keys as [|k keys IH]; simpl; [reflexivity|].
    destruct (Timestamp.eqb k0 k) eqn:E.
    + apply TimestampFacts.eqb_eq in E; subst. simpl in Hk; tauto.
    + rewrite IH; [reflexivity|]. simpl in Hk; tauto.
  - destruct (Timestamp.eqb k0 k) eqn:E.
    + apply TimestampFacts.eqb_eq in E; subst; contradiction.
    + rewrite IH by assumption. ring.
Qed.

Lemma exact_sum_map_add {A : Type} (f g : A -> Z) (l : list A) :
  exact_sum (map (fun a => f a + g a) l) = exact_sum (map f l) + exact_sum (map g l).
Proof. induction l as [|a l IH]; simpl; [reflexivity|rewrite IH; ring]. Qed.

Lemma exact_sum_map_ext {A : Type} (f g : A -> Z) (l : list A) :
  (forall a, f a = g a) -> exact_sum (map f l) = exact_sum (map g l).
Proof. intros H; induction l as [|a l IH]; simpl; [reflexivity|now rewrite H, IH]. Qed.

Lemma exact_sum_groups (keys : list Timestamp) (rows : list (Timestamp * Z)) :
  NoDup keys -> (forall r, In r rows -> In (fst r) keys) ->
  exact_sum (map (fun k => group_total k rows) keys) = exact_sum (map snd rows).
Proof.
  intros Hnd. induction rows as [|r rows IH]; intros Hcover.
  - unfold group_total; simpl.
    induction keys as [|k keys IHk]; simpl; [reflexivity|].
    inversion Hnd; subst. now rewrite IHk.
  - rewrite (exact_sum_map_ext _
      (fun k => (if Timestamp.eqb (fst r) k then snd r else 0)
                + group_total k rows)).
    + rewrite exact_sum_map_add, exact_sum_indicator, IH; simpl; auto.
      * intros r' Hr'; apply Hcover; now right.
      * apply Hcover; now left.
    + intros k. unfold group_total, group_rows; simpl.
      destruct (Timestamp.eqb (fst r) k); simpl; ring.
Qed.

(** [groupby(...).sum()] keeps the column's total. *)
Lemma groupby_sum_total (rows : list (Timestamp * Z)) :
  sum64 (map snd (groupby_sum rows)) = sum64 (map snd rows).
Proof.
  unfold groupby_sum. rewrite map_map; simpl.
  rewrite !sum64_exact_sum.
  rewrite (exact_sum_map_ext _ (fun k => wrap64 (group_total k rows)))
    by (intros k; apply sum64_exact_sum).
  rewrite wrap64_exact_sum_map_wrap. f_equal.
  apply exact_sum_groups.
  - apply group_keys_NoDup.
  - intros r Hr. apply group_keys_In, in_map, Hr.
Qed.

End PandasFacts.

Lemma map_snd_df_city_cat city category df :
  map snd (df_city_cat city category df) = matching_amounts city category df.
Proof. unfold df_city_cat, matching_amounts. now rewrite map_map. Qed.

Lemma map_y_monthly_spend city category df :
  map y (monthly_spend city category df)
  = map snd (Pandas.groupby_sum (df_city_cat city category df)).
Proof. unfold monthly_spend. now rewrite map_map. Qed.

Lemma map_ds_monthly_spend city category df :
  map ds (monthly_spend city category df)
  = Pandas.group_keys (map YearMonth (filter (mask city category) df)).
Proof.
  unfold monthly_spend, Pandas.groupby_sum, df_city_cat.
  rewrite !map_map; simpl. now rewrite map_id.
Qed.

Lemma mask_spec city category r :
  mask city category r = true <-> City r = city /\ Exp_Type r = category.
Proof.
  unfold mask. rewrite andb_true_iff, !String.eqb_eq. tauto.
Qed.

Lemma exact_sum_map_ext_in {A : Type} (f g : A -> Z) (l : list A) :
  (forall a, In a l -> f a = g a) -> exact_sum (map f l) = exact_sum (map g l).
Proof.
  induction l as [|a l IH]; simpl; intros H; [reflexivity|].
  rewrite (H a) by now left. rewrite IH; [reflexivity|].
  intros; apply H; now right.
Qed.

Lemma group_rows_df_city_cat city category df k :
  Pandas.group_rows k (df_city_cat city category df)
  = map (fun r => (YearMonth r, Amount r))
        (filter (fun r => Timestamp.eqb (YearMonth r) k)
                (filter (mask city category) df)).
Proof.
  unfold Pandas.group_rows, df_city_cat.
  induction (filter (mask city category) df) as [|r l IH]; simpl; [reflexivity|].
  destruct (Timestamp.eqb (YearMonth r) k); simpl; now rewrite IH.
Qed.

Lemma monthly_spend_In city category df p :
  In p (monthly_spend city category df) ->
  In (ds p) (map YearMonth (filter (mask city category) df))
  /\ y p = Pandas.sum64 (map Amount (contributing city category df p)).
Proof.
  unfold monthly_spend, Pandas.groupby_sum.
  rewrite map_map; simpl. intros H.
  apply in_map_iff in H as (k & <- & Hk); simpl.
  split.
  - apply (proj1 (PandasFacts.group_keys_In _ _)) in Hk.
    unfold df_city_cat in Hk. rewrite map_map in Hk. exact Hk.
  - rewrite group_rows_df_city_cat, map_map; simpl. reflexivity.
Qed.

(** C2: for every transaction set and every (city, category) filter, the
    sum of the monthly series' amounts equals the sum of the amounts of the
    transactions that match the filter, a match being exact, case-sensitive
    equality of both fields: no matching transaction is dropped or counted
    twice.  Both sums are int64 sums, as the notebook computes them; when
    no month's total leaves the int64 range the exact sums agree as well. *)
Theorem aggregator_preserves_total (city category : string) (df : list Transaction) :
  let series := monthly_spend city category df in
  let selected := filter (mask city category) df in
  Pandas.sum64 (map y series) = Pandas.sum64 (map Amount selected)
  /\ (forall r, In r selected <->
        In r df /\ City r = city /\ Exp_Type r = category)
  /\ ((forall p, In p series ->
         - 2 ^ 63 <= exact_sum (map Amount (contributing city category df p))
         < 2 ^ 63) ->
      exact_sum (map y series) = exact_sum (map Amount selected)).
Proof.
  intros series selected; unfold series, selected; clear series selected.
  split; [|split].
  - rewrite map_y_monthly_spend, PandasFacts.groupby_sum_total.
    now rewrite map_snd_df_city_cat.
  - intros r. rewrite filter_In, mask_spec. tauto.
  - intros Hfit.
    rewrite map_y_monthly_spend. unfold Pandas.groupby_sum.
    rewrite map_map. cbn [snd].
    rewrite (exact_sum_map_ext_in _
               (fun k => group_total k (df_city_cat city category df))).
    + rewrite PandasFacts.exact_sum_groups.
      * now rewrite map_snd_df_city_cat.
      * apply PandasFacts.group_keys_NoDup.
      * intros r Hr. apply PandasFacts.group_keys_In, in_map, Hr.
    + intros k Hk. rewrite PandasFacts.sum64_exact_sum.
      apply PandasFacts.wrap64_small.
      set (p := mkPoint k (Pandas.sum64
                 (map snd (Pandas.group_rows k (df_city_cat city category df))))).
      assert (In p (monthly_spend city category df)) as Hp.
      { unfold monthly_spend, Pandas.groupby_sum. rewrite map_map.
        apply in_map_iff. exists k; split; [reflexivity|exact Hk]. }
      specialize (Hfit p Hp).
      unfold contributing in Hfit. cbn [ds p] in Hfit.
      unfold group_total.
      rewrite group_rows_df_city_cat, map_map. cbn [snd]. exact Hfit.
Qed.

(** C3: for every transaction set and filter, the dates of the monthly
    series are strictly increasing (so sorted ascending, with no
    duplicates), and each date is the first day of the calendar month of
    the transactions that contribute to its point: a point has at least one
    contributing transaction, its amount is their sum, and every selected
    transaction contributes to the point of its month. *)
Theorem aggregator_dates_strictly_increasing
    (city category : string) (df : list Transaction) :
  let series := monthly_spend city category df in
  StronglySorted Timestamp.lt (map ds series)
  /\ NoDup (map ds series)
  /\ (forall p, In p series ->
        Timestamp.day (ds p) = 1
        /\ contributing city category df p <> []
        /\ y p = Pandas.sum64 (map Amount (contributing city category df p))
        /\ forall r, In r (contributing city category df p) ->
             In r df /\ mask city category r = true
             /\ ds p = Timestamp.mk (Timestamp.year (Date r))
                                    (Timestamp.month (Date r)) 1)
  /\ (forall r, In r df -> mask city category r = true ->
        exists p, In p series /\ In r (contributing city category df p)).
Proof.
  intros series; unfold series.
  rewrite map_ds_monthly_spend.
  split; [apply PandasFacts.group_keys_sorted|].
  split; [apply PandasFacts.group_keys_NoDup|].
  split.
  - intros p Hp. apply monthly_spend_In in Hp as [Hin Hy].
    apply in_map_iff in Hin as (r & Hr & Hin).
    split; [now rewrite <- Hr|].
    split.
    + intros Hnil.
      assert (In r (contributing city category df p)) as Hc.
      { unfold contributing. apply filter_In. split; [exact Hin|].
        apply TimestampFacts.eqb_eq. exact Hr. }
      rewrite Hnil in Hc. exact Hc.
    + split; [exact Hy|].
      intros r' Hr'. unfold contributing in Hr'.
      apply filter_In in Hr' as [Hr' E]. apply filter_In in Hr' as [Hdf Hm].
      apply TimestampFacts.eqb_eq in E.
      repeat split; auto.
  - intros r Hdf Hm.
    assert (In (YearMonth r)
              (map ds (monthly_spend city category df))) as H.
    { rewrite map_ds_monthly_spend. apply PandasFacts.group_keys_In.
      apply in_map, filter_In; auto. }
    apply in_map_iff in H as (p & Hp & Hin).
    exists p; split; [exact Hin|].
    unfold contributing. apply filter_In; split.
    + apply filter_In; auto.
    + apply TimestampFacts.eqb_eq. now rewrite Hp.
Qed.

(* ------------------------------------------------------------------ *)
(** ** The splitter *)

Module ExtremaFacts.
Import Timestamp TimestampFacts.

Lemma max_None (l : list t) : max l = None <-> l = [].
Proof.
  destruct l as [|d r]; simpl; [tauto|].
  destruct (max r); split; discriminate.
Qed.

Lemma min_None (l : list t) : min l = None <-> l = [].
Proof.
  destruct l as [|d r]; simpl; [tauto|].
  destruct (min r); split; discriminate.
Qed.

Lemma max_spec (l : list t) (m : t) :
  max l = Some m -> In m l /\ forall x, In x l -> le x m.
Proof.
  revert m; induction l as [|d r IH]; simpl; intros m H; [discriminate|].
  destruct (max r) as [m'|] eqn:E.
  - destruct (IH m' eq_refl) as [Hin Hle].
    injection H as <-.
    destruct (ltb m' d) eqn:L.
    + apply ltb_lt in L. split; [now left|].
      intros x [<-|Hx]; [apply le_refl|].
      apply lt_le_incl, le_lt_trans with m'; auto.
    + split; [now right|].
      intros x [<-|Hx]; auto.
      apply not_lt_le. rewrite <- ltb_lt, L. discriminate.
  - injection H as <-. apply max_None in E; subst r.
    split; [now left|]. intros x [<-|[]]; apply le_refl.
Qed.

Lemma min_spec (l : list t) (m : t) :
  min l = Some m -> In m l /\ forall x, In x l -> le m x.
Proof.
  revert m; induction l as [|d r IH]; simpl; intros m H; [discriminate|].
  destruct (min r) as [m'|] eqn:E.
  - destruct (IH m' eq_refl) as [Hin Hle].
    injection H as <-.
    destruct (ltb d m') eqn:L.
    + apply ltb_lt in L. split; [now left|].
      intros x [<-|Hx]; [apply le_refl|].
      apply lt_le_incl. unfold lt in *.
      specialize (Hle x Hx). unfold le in Hle.
      destruct (compare m' x) eqn:C; try congruence.
      * apply compare_eq_iff in C; now subst.
      * now apply lt_trans with m'.
    + split; [now right|].
      intros x [<-|Hx]; auto.
      apply not_lt_le. rewrite <- ltb_lt, L. discriminate.
  - injection H as <-. apply min_None in E; subst r.
    split; [now left|]. intros x [<-|[]]; apply le_refl.
Qed.

Lemma le_antisym (a b : t) : le a b -> le b a -> a = b.
Proof.
  unfold le; rewrite (compare_antisym a b); intros H1 H2.
  apply compare_eq_iff. destruct (compare a b); simpl in *; congruence.
Qed.

Lemma max_unique (l : list t) (m : t) :
  In m l -> (forall x, In x l -> le x m) -> max l = Some m.
Proof.
  intros Hin Hle. destruct (max l) as [m'|] eqn:E.
  - apply max_spec in E as [Hin' Hle'].
    f_equal. apply le_antisym; auto.
  - apply max_None in E; subst; destruct Hin.
Qed.

End ExtremaFacts.

Lemma filter_split_length {A : Type} (f g : A -> bool) (l : list A) :
  (forall a, g a = negb (f a)) ->
  (length (filter f l) + length (filter g l) = length l)%nat.
Proof.
  intros H; induction l as [|a l IH]; simpl; [reflexivity|].
  rewrite H; destruct (f a); simpl; lia.
Qed.

Lemma train_cutoff_None (series : list Point) :
  train_cutoff series = None <-> series = [].
Proof.
  unfold train_cutoff.
  destruct (Timestamp.max (map ds series)) eqn:E; simpl.
  - split; [discriminate|]. intros ->; discriminate.
  - apply ExtremaFacts.max_None in E. apply map_eq_nil in E. tauto.
Qed.

Lemma train_df_In (series : list Point) (p : Point) :
  In p (train_df series) <->
  In p series /\ exists c, train_cutoff series = Some c /\ Timestamp.le (ds p) c.
Proof.
  unfold train_df. rewrite filter_In.
  destruct (train_cutoff series) as [c|]; simpl.
  - rewrite TimestampFacts.leb_le. split.
    + intros [H1 H2]; split; eauto.
    + intros [H1 (c' & E & H2)]; injection E as <-; auto.
  - split; [intros [_ H]; discriminate|].
    intros [_ (c & E & _)]; discriminate.
Qed.

Lemma test_df_In (series : list Point) (p : Point) :
  In p (test_df series) <->
  In p series /\ exists c, train_cutoff series = Some c /\ Timestamp.lt c (ds p).
Proof.
  unfold test_df. rewrite filter_In.
  destruct (train_cutoff series) as [c|]; simpl.
  - rewrite TimestampFacts.ltb_lt. split.
    + intros [H1 H2]; split; eauto.
    + intros [H1 (c' & E & H2)]; injection E as <-; auto.
  - split; [intros [_ H]; discriminate|].
    intros [_ (c & E & _)]; discriminate.
Qed.

(** C1: for every monthly series, with the cutoff at the series' maximum
    date minus six months, the points with date <= cutoff are the training
    part and all the remaining points are the holdout part: the two lengths
    add up to the length of the series, no point is in both parts, and
    whenever the holdout is not empty every training date, so the greatest
    one, is <= cutoff and every holdout date, so the least one, is > cutoff.
    The cutoff is taken from the greatest date [m] of the series, a date of
    the series that no date of the series exceeds: it is strictly before
    [m], in the month six months before the month of [m], on the same day
    of the month unless that month is shorter; when [m] is a month start it
    is the month start six months before. *)
Theorem splitter_partitions_series (series : list Point) :
  let train := train_df series in
  let test := test_df series in
  (length train + length test = length series)%nat
  /\ (forall p, In p train <->
        In p series /\ exists c, train_cutoff series = Some c
                                 /\ Timestamp.le (ds p) c)
  /\ (forall p, In p test <-> In p series /\ ~ In p train)
  /\ (forall p, In p train -> In p test -> False)
  /\ (series <> [] ->
        exists m, Timestamp.max (map ds series) = Some m
          /\ train_cutoff series = Some (Timestamp.sub_DateOffset_months m 6))
  /\ (series <> [] ->
        exists m c,
          train_cutoff series = Some c
          /\ In m (map ds series)
          /\ (forall p, In p series -> Timestamp.le (ds p) m)
          /\ (1 <= Timestamp.month m <= 12 ->
              1 <= Timestamp.month c <= 12
              /\ Timestamp.month_index c = Timestamp.month_index m - 6
              /\ Timestamp.day c
                 = Z.min (Timestamp.days_in_month (Timestamp.year c)
                                                  (Timestamp.month c))
                         (Timestamp.day m)
              /\ Timestamp.lt c m)
          /\ (Timestamp.is_month_start m ->
              Timestamp.is_month_start c
              /\ Timestamp.month_index c = Timestamp.month_index m - 6))
  /\ (test <> [] ->
        exists c, train_cutoff series = Some c
          /\ (forall m, Timestamp.max (map ds train) = Some m -> Timestamp.le m c)
          /\ (exists m, Timestamp.min (map ds test) = Some m /\ Timestamp.lt c m)
          /\ (forall p, In p train -> Timestamp.le (ds p) c)
          /\ (forall p, In p test -> Timestamp.lt c (ds p))).
Proof.
  intros train test; unfold train, test.
  split; [|split; [|split; [|split; [|split; [|split]]]]].
  - unfold train_df, test_df.
    destruct (train_cutoff series) as [c|] eqn:E; simpl.
    + apply filter_split_length. intros p. now rewrite TimestampFacts.leb_negb_ltb, negb_involutive.
    + apply train_cutoff_None in E; subst; reflexivity.
  - apply train_df_In.
  - intros p. rewrite test_df_In, train_df_In.
    split.
    + intros [Hin (c & E & Hlt)]. split; [exact Hin|].
      intros [_ (c' & E' & Hle)]. rewrite E in E'; injection E' as <-.
      apply TimestampFacts.not_lt_le in Hle. contradiction.
    + intros [Hin Hn]. split; [exact Hin|].
      destruct (train_cutoff series) as [c|] eqn:E.
      * exists c; split; [reflexivity|].
        unfold Timestamp.lt. destruct (Timestamp.compare c (ds p)) eqn:C; auto.
        -- exfalso; apply Hn; split; [exact Hin|]. exists c; split; [reflexivity|].
           apply TimestampFacts.compare_eq_iff in C; subst. apply TimestampFacts.le_refl.
        -- exfalso; apply Hn; split; [exact Hin|]. exists c; split; [reflexivity|].
           unfold Timestamp.le. rewrite (TimestampFacts.compare_antisym c (ds p)), C.
           discriminate.
      * apply train_cutoff_None in E; subst; destruct Hin.
  - intros p H1 H2.
    apply train_df_In in H1 as [_ (c & E & Hle)].
    apply test_df_In in H2 as [_ (c' & E' & Hlt)].
    rewrite E in E'; injection E' as <-.
    apply TimestampFacts.not_lt_le in Hle. contradiction.
  - intros Hne. unfold train_cutoff.
    destruct (Timestamp.max (map ds series)) as [m|] eqn:E.
    + exists m; split; reflexivity.
    + apply ExtremaFacts.max_None, map_eq_nil in E. contradiction.
  - intros Hne. unfold train_cutoff.
    destruct (Timestamp.max (map ds series)) as [m|] eqn:E.
    2:{ apply ExtremaFacts.max_None, map_eq_nil in E. contradiction. }
    exists m, (Timestamp.sub_DateOffset_months m 6).
    apply ExtremaFacts.max_spec in E as [Hin Hle].
    split; [reflexivity|]. split; [exact Hin|]. split; [|split].
    + intros p Hp. apply Hle. now apply in_map.
    + apply TimestampFacts.sub_six_months_calendar.
    + apply TimestampFacts.sub_six_months.
  - intros Hne.
    destruct (train_cutoff series) as [c|] eqn:E.
    + exists c; split; [reflexivity|].
      assert (forall p, In p (train_df series) -> Timestamp.le (ds p) c) as Htrain.
      { intros p Hp. apply train_df_In in Hp as [_ (c' & E' & Hle)].
        rewrite E in E'; now injection E' as <-. }
      assert (forall p, In p (test_df series) -> Timestamp.lt c (ds p)) as Htest.
      { intros p Hp. apply test_df_In in Hp as [_ (c' & E' & Hlt)].
        rewrite E in E'; now injection E' as <-. }
      split; [|split; [|split]]; auto.
      * intros m Hm. apply ExtremaFacts.max_spec in Hm as [Hin _].
        apply in_map_iff in Hin as (p & <- & Hp). auto.
      * destruct (Timestamp.min (map ds (test_df series))) as [m|] eqn:Em.
        -- exists m; split; [reflexivity|].
           apply ExtremaFacts.min_spec in Em as [Hin _].
           apply in_map_iff in Hin as (p & <- & Hp). auto.
        -- apply ExtremaFacts.min_None, map_eq_nil in Em. contradiction.
    + apply train_cutoff_None in E; subst. now elim Hne.
Qed.

Lemma NoDup_map_filter {A B : Type} (f : A -> B) (g : A -> bool) (l : list A) :
  NoDup (map f l) -> NoDup (map f (filter g l)).
Proof.
  induction l as [|a l IH]; simpl; intros H; [constructor|].
  inversion H as [|? ? Hn Hnd]; subst.
  destruct (g a); simpl; auto.
  constructor; auto.
  intros Hin. apply Hn.
  apply in_map_iff in Hin as (x & Hx & Hin).
  apply filter_In in Hin as [Hin _].
  apply in_map_iff; eauto.
Qed.

Lemma NoDup_map_inj_on {A B : Type} (f : A -> B) (l : list A) :
  (forall x y, In x l -> In y l -> f x = f y -> x = y) ->
  NoDup l -> NoDup (map f l).
Proof.
  induction l as [|a l IH]; simpl; intros Hinj H; [constructor|].
  inversion H as [|? ? Hn Hnd]; subst.
  constructor.
  - intros Hin. apply in_map_iff in Hin as (x & Hx & Hin).
    assert (x = a) by (apply Hinj; auto). subst; contradiction.
  - apply IH; auto.
Qed.

Lemma holdout_length_bound (series : list Point) :
  Forall Timestamp.is_month_start (map ds series) ->
  NoDup (map ds series) ->
  (length (test_df series) <= 6)%nat.
Proof.
  intros Hms Hnd.
  destruct (Timestamp.max (map ds series)) as [m|] eqn:Emax.
  2:{ apply ExtremaFacts.max_None, map_eq_nil in Emax; subst; simpl; lia. }
  apply ExtremaFacts.max_spec in Emax as Hmax. destruct Hmax as [Hin Hle].
  rewrite Forall_forall in Hms.
  pose proof (Hms m Hin) as Hm.
  destruct (TimestampFacts.sub_six_months m Hm) as [Hc Hci].
  assert (train_cutoff series = Some (Timestamp.sub_DateOffset_months m 6)) as Ecut
    by (unfold train_cutoff; now rewrite Emax).
  set (idx := fun p => Timestamp.month_index (ds p)).
  set (window := map (fun k => Timestamp.month_index m - Z.of_nat k) (seq 0 6)).
  change 6%nat with (length window).
  rewrite <- (length_map idx (test_df series)).
  apply NoDup_incl_length.
  - unfold idx. rewrite <- (map_map ds Timestamp.month_index).
    apply NoDup_map_inj_on.
    + intros a b Ha Hb. apply TimestampFacts.month_index_inj.
      * apply in_map_iff in Ha as (p & <- & Hp). apply filter_In in Hp as [Hp _].
        apply Hms, in_map, Hp.
      * apply in_map_iff in Hb as (p & <- & Hp). apply filter_In in Hp as [Hp _].
        apply Hms, in_map, Hp.
    + apply NoDup_map_filter, Hnd.
  - intros i Hi. apply in_map_iff in Hi as (p & <- & Hp).
    apply test_df_In in Hp as [Hp (c & E & Hlt)].
    rewrite Ecut in E; injection E as <-.
    assert (Timestamp.is_month_start (ds p)) as Hpm by (apply Hms, in_map, Hp).
    unfold Timestamp.lt in Hlt.
    rewrite TimestampFacts.compare_month_index in Hlt by assumption.
    apply (proj1 (Z.compare_lt_iff _ _)) in Hlt.
    specialize (Hle (ds p) (in_map ds _ _ Hp)). unfold Timestamp.le in Hle.
    rewrite TimestampFacts.compare_month_index in Hle by assumption.
    apply (proj1 (Z.compare_le_iff _ _)) in Hle.
    unfold idx, window. simpl. lia.
Qed.

(** C10: for every monthly series whose dates are distinct month starts,
    the holdout part (the points strictly after the maximum date minus six
    months) has at most six points; with months missing from the series it
    can have fewer, so a holdout of exactly six points is not guaranteed. *)
Theorem holdout_at_most_six :
  (forall series : list Point,
      Forall Timestamp.is_month_start (map ds series) ->
      NoDup (map ds series) ->
      (length (test_df series) <= 6)%nat)
  /\ (exists series : list Point,
         Forall Timestamp.is_month_start (map ds series)
         /\ NoDup (map ds series)
         /\ (length (test_df series) < 6)%nat).
Proof.
  split; [exact holdout_length_bound|].
  exists Examples.gapped_series.
  split; [|split].
  - repeat constructor; simpl; lia.
  - repeat constructor; simpl; intuition discriminate.
  - vm_compute. lia.
Qed.

(* ------------------------------------------------------------------ *)
(** ** The forecast horizon *)

Module RangeFacts.
Import Timestamp TimestampFacts.

Lemma ltb_month_index (a b : t) :
  is_month_start a -> is_month_start b ->
  ltb a b = (month_index a <? month_index b).
Proof.
  intros Ha Hb. unfold ltb, Z.ltb.
  now rewrite compare_month_index by assumption.
Qed.

Lemma leb_month_index (a b : t) :
  is_month_start a -> is_month_start b ->
  leb a b = (month_index a <=? month_index b).
Proof.
  intros Ha Hb. unfold leb, Z.leb.
  now rewrite compare_month_index by assumption.
Qed.

Lemma generate_range_following (cur : t) (n : nat) :
  is_month_start cur -> following cur (seq 0 n) (generate_range cur n).
Proof.
  revert cur; induction n as [|n IH]; intros cur Hc; simpl.
  - split; [constructor|reflexivity].
  - destruct (add_MonthBegin_index cur (proj1 Hc)) as [Hn Hi].
    destruct (IH _ Hn) as [Hf Hm].
    split; [constructor; assumption|].
    simpl. f_equal; [lia|].
    rewrite Hm, <- seq_shift, map_map.
    apply map_ext. intros i. lia.
Qed.

Lemma filter_all {A : Type} (f : A -> bool) (l : list A) :
  (forall a, In a l -> f a = true) -> filter f l = l.
Proof.
  induction l as [|a l IH]; simpl; intros H; [reflexivity|].
  rewrite (H a) by now left. f_equal. apply IH. intros; apply H; now right.
Qed.

Lemma filter_none {A : Type} (f : A -> bool) (l : list A) :
  (forall a, In a l -> f a = false) -> filter f l = [].
Proof.
  induction l as [|a l IH]; simpl; intros H; [reflexivity|].
  rewrite (H a) by now left. apply IH. intros; apply H; now right.
Qed.

Lemma following_gt (d x : t) (n : nat) (l : list t) :
  is_month_start d -> following d (seq 1 n) l -> In x l -> ltb d x = true.
Proof.
  intros Hd [Hf Hm] Hx.
  rewrite Forall_forall in Hf.
  rewrite ltb_month_index by auto.
  apply Z.ltb_lt.
  assert (In (month_index x) (map month_index l)) as Hi by now apply in_map.
  rewrite Hm in Hi. apply in_map_iff in Hi as (i & <- & Hi).
  apply in_seq in Hi. lia.
Qed.

Lemma generate_range_length (cur : t) (n : nat) :
  length (generate_range cur n) = n.
Proof. revert cur; induction n; intros; simpl; auto. Qed.

End RangeFacts.

(** From a last training date that is a month start, the horizon of
    [make_future_dataframe] is the run of the next [periods] month starts. *)
Lemma future_dates_following (last_date : Timestamp) (periods : nat) :
  Timestamp.is_month_start last_date ->
  following last_date (seq 1 periods)
    (Prophet.future_dates last_date periods)
  /\ length (Prophet.future_dates last_date periods) = periods.
Proof.
  intros Hl.
  unfold Prophet.future_dates, Timestamp.date_range_MS, Timestamp.rollforward.
  destruct Hl as [Hm Hd]. rewrite Hd. simpl Z.eqb. cbv iota.
  assert (Timestamp.is_month_start last_date) as Hl by (split; assumption).
  simpl Timestamp.generate_range. simpl filter.
  assert (Timestamp.ltb last_date last_date = false) as ->.
  { unfold Timestamp.ltb. now rewrite TimestampFacts.compare_refl. }
  destruct (TimestampFacts.add_MonthBegin_index last_date Hm) as [Hn Hi].
  pose proof (RangeFacts.generate_range_following _ periods Hn) as [Hf Hx].
  assert (following last_date (seq 1 periods)
            (Timestamp.generate_range (Timestamp.add_MonthBegin last_date) periods))
    as Hfol.
  { split; [exact Hf|]. rewrite Hx, <- seq_shift, map_map.
    apply map_ext; intros i; lia. }
  rewrite RangeFacts.filter_all.
  - rewrite firstn_all2 by (rewrite RangeFacts.generate_range_length; lia).
    split; [exact Hfol|apply RangeFacts.generate_range_length].
  - intros x Hx'. eapply RangeFacts.following_gt; eauto.
Qed.

Lemma map_fc_ds_predict (m : Prophet.Model) (future : list Timestamp) :
  map fc_ds (Prophet.predict m future) = future.
Proof.
  unfold Prophet.predict. rewrite map_map; simpl. apply map_id.
Qed.

Lemma map_fc_ds_future_only train forecast :
  map fc_ds (future_only train forecast)
  = filter (fun d => Timestamp.gtb_NaT d (Timestamp.max (map ds train)))
           (map fc_ds forecast).
Proof.
  unfold future_only. induction forecast as [|f l IH]; simpl; [reflexivity|].
  destruct (Timestamp.gtb_NaT (fc_ds f) _); simpl; now rewrite IH.
Qed.

Lemma max_group_keys (l : list Timestamp) :
  Timestamp.max (Pandas.group_keys l) = Timestamp.max l.
Proof.
  destruct (Timestamp.max l) as [m|] eqn:E.
  - apply ExtremaFacts.max_spec in E as [Hin Hle].
    apply ExtremaFacts.max_unique.
    + apply (proj2 (PandasFacts.group_keys_In _ _)), Hin.
    + intros x Hx. apply Hle, (proj1 (PandasFacts.group_keys_In _ _)), Hx.
  - apply ExtremaFacts.max_None in E; subst; reflexivity.
Qed.

(** The forecast rows kept by [future_only]: exactly the appended horizon,
    when the training dates are month starts. *)
Lemma horizon_of_fitted_model (engine : Prophet.Engine) (train : list Point)
    (last_date : Timestamp) :
  (2 <= length train)%nat ->
  Timestamp.max (map ds train) = Some last_date ->
  Timestamp.is_month_start last_date ->
  exists m, Prophet.fit engine train = Ok m
    /\ map fc_ds (future_only train
                    (Prophet.predict m (Prophet.make_future_dataframe m 6)))
       = Prophet.future_dates last_date 6.
Proof.
  intros Hlen Hmax Hms.
  unfold Prophet.fit.
  destruct (Nat.ltb_spec (length train) 2) as [Hlt|_]; [lia|].
  eexists; split; [reflexivity|].
  rewrite map_fc_ds_future_only, map_fc_ds_predict.
  unfold Prophet.make_future_dataframe; simpl.
  rewrite max_group_keys, Hmax.
  rewrite filter_app.
  rewrite RangeFacts.filter_none.
  - simpl. apply RangeFacts.filter_all.
    intros x Hx. simpl.
    destruct (future_dates_following last_date 6 Hms) as [Hf _].
    eapply RangeFacts.following_gt; eauto.
  - intros x Hx. simpl.
    apply (proj1 (PandasFacts.group_keys_In _ _)) in Hx.
    apply ExtremaFacts.max_spec in Hmax as [_ Hle].
    specialize (Hle x Hx).
    unfold Timestamp.ltb. unfold Timestamp.le in Hle.
    rewrite (TimestampFacts.compare_antisym x last_date).
    destruct (Timestamp.compare x last_date); simpl; congruence.
Qed.

Lemma month_starts_eq (l1 l2 : list Timestamp) :
  Forall Timestamp.is_month_start l1 -> Forall Timestamp.is_month_start l2 ->
  map Timestamp.month_index l1 = map Timestamp.month_index l2 -> l1 = l2.
Proof.
  intros H1; revert l2; induction H1 as [|a l1 Ha H1 IH]; intros l2 H2 E.
  - destruct l2; [reflexivity|discriminate].
  - destruct l2 as [|b l2]; [discriminate|].
    inversion H2; subst. simpl in E. injection E as Eh Et.
    f_equal; [now apply TimestampFacts.month_index_inj|now apply IH].
Qed.

Ltac decide_month_order :=
  repeat match goal with
  | |- context [Timestamp.leb ?a ?b] =>
      rewrite (RangeFacts.leb_month_index a b) by assumption;
      destruct (Z.leb_spec (Timestamp.month_index a) (Timestamp.month_index b));
      try lia
  | |- context [Timestamp.ltb ?a ?b] =>
      rewrite (RangeFacts.ltb_month_index a b) by assumption;
      destruct (Z.ltb_spec (Timestamp.month_index a) (Timestamp.month_index b));
      try lia
  end.

(** C5: for every monthly series of exactly fourteen consecutive month
    starts, the split leaves the first eight points in the training part and
    the last six in the holdout part, the fit succeeds, and the six horizon
    dates of the forecast are the month starts one to six months after the
    last training date; they are the holdout dates. *)
Theorem fourteen_months_split (series : list Point) (engine : Prophet.Engine) :
  length series = 14%nat ->
  Spec.consecutive_month_starts (map ds series) ->
  train_df series = firstn 8 series
  /\ test_df series = skipn 8 series
  /\ length (train_df series) = 8%nat
  /\ length (test_df series) = 6%nat
  /\ exists m last_date,
       Prophet.fit engine (train_df series) = Ok m
       /\ Timestamp.max (map ds (train_df series)) = Some last_date
       /\ let horizon :=
            map fc_ds (future_only (train_df series)
                         (Prophet.predict m (Prophet.make_future_dataframe m 6))) in
          length horizon = 6%nat
          /\ Forall Timestamp.is_month_start horizon
          /\ map Timestamp.month_index horizon
             = map (fun k => Timestamp.month_index last_date + Z.of_nat k)
                   [1; 2; 3; 4; 5; 6]%nat
          /\ horizon = map ds (test_df series).
Proof.
  intros Hlen Hcons.
  destruct series as
    [|p0 [|p1 [|p2 [|p3 [|p4 [|p5 [|p6 [|p7 [|p8 [|p9 [|p10 [|p11 [|p12 [|p13
       [|p14 rest]]]]]]]]]]]]]]]; try discriminate Hlen.
  clear Hlen. cbn [map] in Hcons.
  repeat match goal with
  | H : Spec.consecutive_month_starts (_ :: _ :: _) |- _ =>
      inversion H; subst; clear H
  end.
  match goal with
  | H : Spec.consecutive_month_starts [_] |- _ => inversion H; subst; clear H
  end.
  pose (train := [p0; p1; p2; p3; p4; p5; p6; p7]).
  pose (test := [p8; p9; p10; p11; p12; p13]).
  change [p0; p1; p2; p3; p4; p5; p6; p7; p8; p9; p10; p11; p12; p13]
    with (train ++ test).
  assert (Timestamp.max (map ds (train ++ test)) = Some (ds p13)) as Hmax.
  { apply ExtremaFacts.max_unique; [simpl; tauto|].
    intros x Hx; simpl in Hx.
    unfold Timestamp.le.
    repeat (destruct Hx as [<-|Hx];
            [rewrite TimestampFacts.compare_month_index by assumption;
             apply Z.compare_le_iff; lia|]).
    destruct Hx. }
  destruct (TimestampFacts.sub_six_months (ds p13)) as [Hc Hci]; [assumption|].
  assert (train_df (train ++ test) = train) as Htrain.
  { unfold train_df, train_cutoff. rewrite Hmax.
    cbn [option_map Timestamp.leb_NaT app filter train test].
    decide_month_order. reflexivity. }
  assert (test_df (train ++ test) = test) as Htest.
  { unfold test_df, train_cutoff. rewrite Hmax.
    cbn [option_map Timestamp.gtb_NaT app filter train test].
    decide_month_order. reflexivity. }
  rewrite Htrain, Htest.
  split; [reflexivity|]. split; [reflexivity|].
  split; [reflexivity|]. split; [reflexivity|].
  assert (Timestamp.max (map ds train) = Some (ds p7)) as Hlast.
  { apply ExtremaFacts.max_unique; [simpl; tauto|].
    intros x Hx; simpl in Hx.
    unfold Timestamp.le.
    repeat (destruct Hx as [<-|Hx];
            [rewrite TimestampFacts.compare_month_index by assumption;
             apply Z.compare_le_iff; lia|]).
    destruct Hx. }
  destruct (horizon_of_fitted_model engine train (ds p7))
    as (m & Hfit & Hh); [simpl; lia|exact Hlast|assumption|].
  exists m, (ds p7).
  split; [exact Hfit|]. split; [exact Hlast|].
  cbv zeta. rewrite Hh.
  destruct (future_dates_following (ds p7) 6) as [[Hf Hi] Hl]; [assumption|].
  split; [exact Hl|]. split; [exact Hf|]. split; [exact Hi|].
  apply month_starts_eq; [exact Hf| |].
  - simpl. repeat (apply Forall_cons; [assumption|]). apply Forall_nil.
  - rewrite Hi. simpl. repeat (f_equal; try lia).
Qed.

(* ------------------------------------------------------------------ *)
(** ** The evaluator *)

Section Counting.
Context {A B : Type}.

Lemma flat_map_length_total (g : A -> list B) (l : list A) :
  length (flat_map g l) = total (map (fun a => length (g a)) l).
Proof.
  induction l as [|a l IH]; simpl; [reflexivity|].
  now rewrite length_app, IH.
Qed.

Lemma total_at_most_one (g : A -> nat) (l : list A) :
  (forall a, In a l -> (g a <= 1)%nat) -> (total (map g l) <= length l)%nat.
Proof.
  induction l as [|a l IH]; simpl; intros H; [lia|].
  specialize (H a (or_introl eq_refl)) as Ha.
  assert (total (map g l) <= length l)%nat by (apply IH; intros; apply H; now right).
  lia.
Qed.

(** Counting the pairs of a relation row by row or column by column. *)
Lemma total_swap (R : A -> B -> bool) (la : list A) (lb : list B) :
  total (map (fun a => length (filter (R a) lb)) la)
  = total (map (fun b => length (filter (fun a => R a b) la)) lb).
Proof.
  induction la as [|a la IH]; simpl.
  - induction lb as [|b lb IHb]; simpl; auto.
  - rewrite IH. clear IH.
    induction lb as [|b lb IHb]; simpl; [reflexivity|].
    destruct (R a b); simpl; lia.
Qed.
End Counting.

Lemma matches_ds_yhat (k : Timestamp) (forecast : list Forecast) :
  matches k (ds_yhat forecast)
  = map (fun f => (fc_ds f, yhat f))
        (filter (fun f => Timestamp.eqb (fc_ds f) k) forecast).
Proof.
  unfold matches, ds_yhat.
  induction forecast as [|f l IH]; simpl; [reflexivity|].
  destruct (Timestamp.eqb (fc_ds f) k); simpl; now rewrite IH.
Qed.

Lemma dropna_app (a b : list EvalRow) : dropna (a ++ b) = dropna a ++ dropna b.
Proof. apply filter_app. Qed.

Lemma dropna_present (d : Timestamp) (v : Z)
    (ms : list (Timestamp * Float64.number)) :
  dropna (map (fun r => mkEvalRow d v (Some (snd r))) ms)
  = map (fun r => mkEvalRow d v (Some (snd r))) ms.
Proof. induction ms as [|r ms IH]; simpl; [reflexivity|now rewrite IH]. Qed.

Lemma dropna_merge_row (p : Point) (forecast : list Forecast) :
  dropna (merge_row p (ds_yhat forecast))
  = map (fun f => mkEvalRow (ds p) (y p) (Some (yhat f)))
        (filter (fun f => Timestamp.eqb (fc_ds f) (ds p)) forecast).
Proof.
  unfold merge_row. rewrite matches_ds_yhat.
  set (ms := map (fun f => (fc_ds f, yhat f)) _).
  assert (dropna match ms with
                 | [] => [mkEvalRow (ds p) (y p) None]
                 | r0 :: rs =>
                     map (fun r => mkEvalRow (ds p) (y p) (Some (snd r))) (r0 :: rs)
                 end
          = map (fun r => mkEvalRow (ds p) (y p) (Some (snd r))) ms) as ->.
  { destruct ms; [reflexivity|apply dropna_present]. }
  unfold ms. now rewrite map_map.
Qed.

(** Left merge, then [dropna]: the inner join of the specification. *)
Lemma eval_df_inner_join (test : list Point) (forecast : list Forecast) :
  eval_df test forecast = map row_of_record (Spec.inner_join test forecast).
Proof.
  unfold eval_df, merge_left, Spec.inner_join.
  induction test as [|p test IH]; [reflexivity|].
  cbn [flat_map]. rewrite dropna_app, IH, map_app. f_equal.
  rewrite dropna_merge_row, map_map. reflexivity.
Qed.

Lemma inner_join_In (test : list Point) (forecast : list Forecast)
    (r : Spec.EvaluationRecord) :
  In r (Spec.inner_join test forecast) <->
  exists p f, In p test /\ In f forecast /\ fc_ds f = ds p
              /\ r = Spec.mkRecord (ds p) (y p) (yhat f).
Proof.
  unfold Spec.inner_join. rewrite in_flat_map. split.
  - intros (p & Hp & Hr). apply in_map_iff in Hr as (f & <- & Hf).
    apply filter_In in Hf as [Hf E]. apply TimestampFacts.eqb_eq in E.
    exists p, f; auto.
  - intros (p & f & Hp & Hf & E & ->). exists p; split; [exact Hp|].
    apply in_map_iff. exists f; split; [reflexivity|].
    apply filter_In; split; [exact Hf|]. now apply TimestampFacts.eqb_eq.
Qed.

Lemma inner_join_length (test : list Point) (forecast : list Forecast) :
  length (Spec.inner_join test forecast)
  = total (map (fun p => length (filter (fun f => Timestamp.eqb (fc_ds f) (ds p))
                                         forecast)) test).
Proof.
  unfold Spec.inner_join. rewrite flat_map_length_total.
  f_equal. apply map_ext. intros p. apply length_map.
Qed.

Lemma filter_key_at_most_one {A : Type} (key : A -> Timestamp) (k : Timestamp)
    (l : list A) :
  NoDup (map key l) ->
  (length (filter (fun a => Timestamp.eqb (key a) k) l) <= 1)%nat.
Proof.
  induction l as [|a l IH]; simpl; intros H; [lia|].
  inversion H as [|? ? Hn Hnd]; subst.
  destruct (Timestamp.eqb (key a) k) eqn:E; [|auto].
  apply TimestampFacts.eqb_eq in E; subst k.
  rewrite RangeFacts.filter_none; simpl; [lia|].
  intros b Hb. destruct (Timestamp.eqb (key b) (key a)) eqn:E'; [|reflexivity].
  apply TimestampFacts.eqb_eq in E'. exfalso; apply Hn.
  rewrite <- E'. now apply in_map.
Qed.

Lemma inner_join_length_bound (test : list Point) (forecast : list Forecast) :
  NoDup (map ds test) -> NoDup (map fc_ds forecast) ->
  (length (Spec.inner_join test forecast)
   <= Nat.min (length test) (length forecast))%nat.
Proof.
  intros Ht Hf. apply Nat.min_glb.
  - rewrite inner_join_length. apply total_at_most_one.
    intros p _. now apply filter_key_at_most_one.
  - rewrite inner_join_length.
    rewrite (total_swap (fun p f => Timestamp.eqb (fc_ds f) (ds p))).
    apply total_at_most_one. intros f _.
    rewrite (filter_ext _ (fun p => Timestamp.eqb (ds p) (fc_ds f)))
      by (intros p; apply TimestampFacts.eqb_sym).
    now apply filter_key_at_most_one.
Qed.

(** With proper months in the transaction dates, the monthly series is made
    of month starts. *)
Lemma monthly_spend_month_starts (city category : string) (df : list Transaction) :
  (forall r, In r df -> Timestamp.valid (Date r)) ->
  Forall Timestamp.is_month_start (map ds (monthly_spend city category df)).
Proof.
  intros Hv. rewrite map_ds_monthly_spend. apply Forall_forall. intros d Hd.
  apply (proj1 (PandasFacts.group_keys_In _ _)) in Hd.
  apply in_map_iff in Hd as (r & <- & Hr). apply filter_In in Hr as [Hr _].
  apply TimestampFacts.to_month_start_is_month_start. exact (proj1 (Hv r Hr)).
Qed.

Lemma following_NoDup (d : Timestamp) (start n : nat) (l : list Timestamp) :
  following d (seq start n) l -> NoDup l.
Proof.
  intros [_ Hi]. apply (NoDup_map_inv Timestamp.month_index). rewrite Hi.
  apply NoDup_map_inj_on; [|apply seq_NoDup].
  intros i j _ _ E. lia.
Qed.

(** The forecast table of a model fitted on month starts has one record per
    date. *)
Lemma forecast_dates_distinct (engine : Prophet.Engine) (train : list Point)
    (m : Prophet.Model) :
  Forall Timestamp.is_month_start (map ds train) ->
  Prophet.fit engine train = Ok m ->
  NoDup (map fc_ds (Prophet.predict m (Prophet.make_future_dataframe m 6))).
Proof.
  intros Hms Hfit. rewrite map_fc_ds_predict.
  unfold Prophet.fit in Hfit.
  destruct (length train <? 2)%nat; [discriminate|]. injection Hfit as <-.
  unfold Prophet.make_future_dataframe; cbn [Prophet.history_dates].
  rewrite max_group_keys.
  destruct (Timestamp.max (map ds train)) as [last_date|] eqn:Emax;
    [|apply PandasFacts.group_keys_NoDup].
  apply ExtremaFacts.max_spec in Emax as [Hin Hle].
  assert (Timestamp.is_month_start last_date) as Hl
    by (rewrite Forall_forall in Hms; auto).
  destruct (future_dates_following last_date 6 Hl) as [Hf _].
  apply NoDup_app.
  - apply PandasFacts.group_keys_NoDup.
  - eapply following_NoDup; eauto.
  - intros x Hx Hx'.
    apply (proj1 (PandasFacts.group_keys_In _ _)) in Hx.
    specialize (Hle x Hx).
    pose proof (RangeFacts.following_gt _ _ _ _ Hl Hf Hx') as Hgt.
    apply TimestampFacts.ltb_lt in Hgt.
    apply TimestampFacts.not_lt_le in Hle. contradiction.
Qed.

Lemma notebook_tables_distinct_dates (engine : Prophet.Engine)
    (city category : string) (df : list Transaction) (m : Prophet.Model) :
  (forall r, In r df -> Timestamp.valid (Date r)) ->
  let series := monthly_spend city category df in
  Prophet.fit engine (train_df series) = Ok m ->
  NoDup (map ds (test_df series))
  /\ NoDup (map fc_ds (Prophet.predict m (Prophet.make_future_dataframe m 6))).
Proof.
  intros Hv series Hfit. split.
  - apply NoDup_map_filter.
    unfold series. rewrite map_ds_monthly_spend.
    apply PandasFacts.group_keys_NoDup.
  - apply (forecast_dates_distinct engine (train_df series)); [|exact Hfit].
    pose proof (monthly_spend_month_starts city category df Hv) as Hms.
    rewrite Forall_forall in *. intros d Hd. apply Hms.
    apply in_map_iff in Hd as (p & <- & Hp). apply filter_In in Hp as [Hp _].
    now apply in_map.
Qed.

(** C4: for every holdout series and forecast table, the left merge on the
    date followed by [dropna] is the inner join: its rows are exactly the
    pairs of a holdout point and a forecast record with the same date, and
    nothing else; with one point per date in the holdout and one record per
    date in the forecast, there are at most min(len(holdout), len(forecast))
    evaluation rows.  The tables the notebook builds are of that kind, for
    every transaction set with proper dates, every filter and every fitted
    model. *)
Theorem evaluation_join_is_inner (test : list Point) (forecast : list Forecast) :
  eval_df test forecast = map row_of_record (Spec.inner_join test forecast)
  /\ (forall row, In row (eval_df test forecast) <->
        exists p f, In p test /\ In f forecast /\ ds p = fc_ds f
                    /\ row = mkEvalRow (ds p) (y p) (Some (yhat f)))
  /\ (NoDup (map ds test) -> NoDup (map fc_ds forecast) ->
      (length (eval_df test forecast)
       <= Nat.min (length test) (length forecast))%nat)
  /\ (forall (engine : Prophet.Engine) (city category : string)
             (df : list Transaction) (m : Prophet.Model),
        (forall r, In r df -> Timestamp.valid (Date r)) ->
        test = test_df (monthly_spend city category df) ->
        Prophet.fit engine (train_df (monthly_spend city category df)) = Ok m ->
        forecast = Prophet.predict m (Prophet.make_future_dataframe m 6) ->
        (length (eval_df test forecast)
         <= Nat.min (length test) (length forecast))%nat).
Proof.
  split; [apply eval_df_inner_join|]. split; [|split].
  - intros row. rewrite eval_df_inner_join, in_map_iff. split.
    + intros (r & <- & Hr). apply inner_join_In in Hr as (p & f & Hp & Hf & E & ->).
      exists p, f; auto.
    + intros (p & f & Hp & Hf & E & ->).
      exists (Spec.mkRecord (ds p) (y p) (yhat f)); split; [reflexivity|].
      apply inner_join_In. exists p, f; auto.
  - intros Ht Hf. rewrite eval_df_inner_join, length_map.
    now apply inner_join_length_bound.
  - intros engine city category df m Hv -> Hfit ->.
    destruct (notebook_tables_distinct_dates engine city category df m Hv Hfit)
      as [Ht Hf].
    rewrite eval_df_inner_join, length_map.
    now apply inner_join_length_bound.
Qed.

(** ** Float64 arithmetic *)

Module Float64Facts.
Import Float64.







(** The sign plays no part in rounding to nearest. *)
Lemma abs_binary_round (s : bool) (m : positive) (e : Z) :
  abs (binary_round prec emax s m e) = binary_round prec emax false m e.
Proof.
  unfold binary_round. destruct (shl_align m e _) as [mz ez].
  unfold binary_round_aux.
  destruct (shr_fexp prec emax (Z.pos mz) ez loc_Exact) as [mrs' e'].
  destruct (shr_fexp prec emax _ e' loc_Exact) as [mrs'' e''].
  destruct (shr_m mrs''); [reflexivity| |reflexivity].
  destruct (e'' <=? emax - prec); reflexivity.
Qed.






(** |a - b| and |b - a| are the same float64. *)
Lemma abs_sub_sym (a b : t) : abs (sub a b) = abs (sub b a).
Proof.
  unfold sub.
  destruct a as [sa|sa| |sa ma ea], b as [sb|sb| |sb mb eb]; simpl;
    try reflexivity; try (destruct sa, sb; reflexivity).
  rewrite (Z.min_comm eb ea).
  set (ez := Z.min ea eb).
  set (x := cond_Zopp sa (Z.pos (fst (shl_align ma ea ez)))).
  set (y := cond_Zopp sb (Z.pos (fst (shl_align mb eb ez)))).
  replace (y - x) with (- (x - y)) by lia.
  destruct (x - y) as [|p|p]; simpl; [reflexivity| |];
    now rewrite !abs_binary_round.
Qed.






Lemma div_zero (m : positive) (e : Z) : div zero (S754_finite false m e) = zero.
Proof. reflexivity. Qed.





End Float64Facts.

Module NumpyFacts.
Import Numpy.

(** A property of float64 values that holds of 0 and is kept by addition
    holds of every sum numpy forms of values that have it. *)
Section Closed.
Variable P : Float64.t -> Prop.
Hypothesis P_zero : P Float64.zero.
Hypothesis P_add : forall a b, P a -> P b -> P (Float64.add a b).








End Closed.




End NumpyFacts.

Module SklearnFacts.
Import Sklearn.

Lemma values_present {A B : Type} (f : A -> B) (l : list A) :
  values (map (fun a => Some (f a)) l) = Some (map f l).
Proof. induction l as [|a l IH]; simpl; [reflexivity|now rewrite IH]. Qed.

Lemma check_array_present {A B : Type} (f : A -> B) (l : list A) :
  l <> [] -> check_array (map (fun a => Some (f a)) l) = Ok (map f l).
Proof.
  intros H. unfold check_array. rewrite values_present.
  destruct l; [contradiction|reflexivity].
Qed.

Lemma combine_maps {A B C : Type} (f : A -> B) (g : A -> C) (l : list A) :
  combine (map f l) (map g l) = map (fun a => (f a, g a)) l.
Proof. induction l as [|a l IH]; simpl; [reflexivity|now rewrite IH]. Qed.




End SklearnFacts.

Lemma mae_of_records (records : list Spec.EvaluationRecord) :
  records <> [] ->
  mae (map row_of_record records) = Ok (Sklearn.average (abs_errors records)).
Proof.
  intros Hne. unfold mae, Sklearn.mean_absolute_error, col_y, col_yhat.
  rewrite !map_map. cbn [row_of_record e_y e_yhat].
  rewrite !length_map, Nat.eqb_refl. cbn [negb].
  rewrite (SklearnFacts.check_array_present Spec.actual records Hne).
  cbn [bind_result].
  rewrite (SklearnFacts.check_array_present Spec.predicted records Hne).
  cbn [bind_result]. cbv zeta.
  f_equal. f_equal. unfold abs_errors.
  rewrite !map_map, SklearnFacts.combine_maps, map_map. cbn [fst snd].
  apply map_ext. intros r. apply Float64Facts.abs_sub_sym.
Qed.



Lemma no_overlap_empty (test : list Point) (forecast : list Forecast) :
  (forall p f, In p test -> In f forecast -> ds p <> fc_ds f) <->
  eval_df test forecast = [].
Proof.
  rewrite eval_df_inner_join. split.
  - intros H. destruct (Spec.inner_join test forecast) as [|r l] eqn:E; [reflexivity|].
    assert (In r (Spec.inner_join test forecast)) as Hr by (rewrite E; now left).
    apply inner_join_In in Hr as (p & f & Hp & Hf & Ek & _).
    exfalso; apply (H p f Hp Hf). now rewrite Ek.
  - intros E p f Hp Hf Ek. apply map_eq_nil in E.
    assert (In (Spec.mkRecord (ds p) (y p) (yhat f)) (Spec.inner_join test forecast))
      as Hin by (apply inner_join_In; exists p, f; auto).
    rewrite E in Hin. exact Hin.
Qed.

(** C7, as the notebook behaves: when no holdout date is a forecast date
    the evaluation join is empty and [mean_absolute_error] raises the
    library's [ValueError] (an array with no sample); no value, zero or
    other, is returned.  There is no separate no-overlap error. *)
Theorem empty_join_raises_ValueError (test : list Point) (forecast : list Forecast) :
  (forall p f, In p test -> In f forecast -> ds p <> fc_ds f) ->
  eval_df test forecast = []
  /\ mae (eval_df test forecast) = Raise "ValueError"
  /\ forall value, mae (eval_df test forecast) <> Ok value.
Proof.
  intros H. apply no_overlap_empty in H. rewrite H.
  split; [reflexivity|]. split; [reflexivity|]. intros value; discriminate.
Qed.

(* ------------------------------------------------------------------ *)
(** ** Runs of the notebook *)

(** C9, as the notebook behaves: nothing catches an exception, so a
    failure to draw any of the four figures or to write any of the three
    image files ends the run with an exception.  Outputs produced before
    the failure stay and later ones are not produced: a failure in the
    historical plot (section 5) leaves no forecast table; a failure in
    section 5 or in the forecast plots (section 9) leaves neither the mean
    absolute error nor the evaluation table; a failure in the components
    plot (section 11) leaves no closing list of dates.  When every earlier
    step succeeds the exception is the one of the failed save: after a
    failed save of the historical plot the monthly series is on the page,
    after a failed save of the forecast plot the forecast table is, and
    after a failed save of the components plot the mean absolute error and
    the evaluation table are. *)
Theorem plot_failure_stops_the_run
    (env : Env) (engine : Prophet.Engine) (city category : string)
    (df : list Transaction) :
  let outcome := run env engine city category df in
  let series := monthly_spend city category df in
  ((exists title, In title plot_titles /\ plot_fails env title)
   \/ (exists path, In path image_files /\ save_fails env path) ->
   exists c, snd outcome = Raise c)
  /\ (plot_fails env "Monthly Spend"
      \/ save_fails env monthly_spend_plot_png ->
      forall rows, ~ In (Out_forecast rows) (fst outcome))
  /\ (plot_fails env "Monthly Spend"
      \/ save_fails env monthly_spend_plot_png
      \/ plot_fails env "Prophet Forecast"
      \/ save_fails env prophet_forecast_png
      \/ plot_fails env "Actual vs Forecast" ->
      (forall value, ~ In (Out_mae value) (fst outcome))
      /\ (forall rows, ~ In (Out_eval rows) (fst outcome)))
  /\ (plot_fails env "Prophet Components"
      \/ save_fails env prophet_components_png ->
      forall dates, ~ In (Out_dates dates) (fst outcome))
  /\ (forall class,
        savefig_error env monthly_spend_plot_png = Some class ->
        makedirs_error env = None ->
        plot_error env "Monthly Spend" = None ->
        snd outcome = Raise class
        /\ In (Out_points (firstn 10 series)) (fst outcome))
  /\ (forall class m,
        savefig_error env prophet_forecast_png = Some class ->
        makedirs_error env = None ->
        plot_error env "Monthly Spend" = None ->
        savefig_error env monthly_spend_plot_png = None ->
        plot_error env "Prophet Forecast" = None ->
        Prophet.fit engine (train_df series) = Ok m ->
        snd outcome = Raise class
        /\ In (Out_forecast
                 (future_only (train_df series)
                    (Prophet.predict m (Prophet.make_future_dataframe m 6))))
              (fst outcome))
  /\ (forall class m value,
        savefig_error env prophet_components_png = Some class ->
        makedirs_error env = None ->
        (forall title, In title plot_titles -> plot_error env title = None) ->
        savefig_error env monthly_spend_plot_png = None ->
        savefig_error env prophet_forecast_png = None ->
        Prophet.fit engine (train_df series) = Ok m ->
        mae (eval_df (test_df series)
               (Prophet.predict m (Prophet.make_future_dataframe m 6)))
        = Ok value ->
        snd outcome = Raise class
        /\ In (Out_mae value) (fst outcome)
        /\ In (Out_eval (eval_df (test_df series)
                 (Prophet.predict m (Prophet.make_future_dataframe m 6))))
              (fst outcome)).
Proof.
  intros outcome series; unfold outcome, series; clear outcome series.
  run_cells.
  destruct (makedirs_error env) as [c1|] eqn:E1; [settle|].
  destruct (plot_error env "Monthly Spend") as [c2|] eqn:E2; [settle|].
  destruct (savefig_error env monthly_spend_plot_png) as [c3|] eqn:E3; [settle|].
  destruct (Prophet.fit engine (train_df (monthly_spend city category df)))
    as [m|c4] eqn:E4; [|settle].
  destruct (plot_error env "Prophet Forecast") as [c5|] eqn:E5; [settle|].
  destruct (savefig_error env prophet_forecast_png) as [c6|] eqn:E6; [settle|].
  destruct (plot_error env "Actual vs Forecast") as [c7|] eqn:E7; [settle|].
  destruct (mae _) as [value|c8] eqn:E8; [|settle].
  destruct (plot_error env "Prophet Components") as [c9|] eqn:E9; [settle|].
  destruct (savefig_error env prophet_components_png) as [c10|] eqn:E10; settle.
Qed.

Lemma no_match_filter (city category : string) (df : list Transaction) :
  (forall r, In r df -> ~ (City r = city /\ Exp_Type r = category)) ->
  filter (mask city category) df = [].
Proof.
  intros H. apply RangeFacts.filter_none. intros r Hr.
  destruct (mask city category r) eqn:E; [|reflexivity].
  apply mask_spec in E. now elim (H r Hr).
Qed.

(** C6, as the notebook behaves: for every filter that matches no
    transaction the monthly series is empty (no error), and so are both
    parts of the split; downstream the forecaster's [fit] raises
    [ValueError] on the empty training frame, which ends the run before any
    forecast or metric is produced.  When the earlier plot steps succeed the
    run ends with that [ValueError]; there is no separate empty-filter
    error. *)
Theorem empty_filter_stops_at_fit (city category : string) (df : list Transaction) :
  (forall r, In r df -> ~ (City r = city /\ Exp_Type r = category)) ->
  monthly_spend city category df = []
  /\ train_df (monthly_spend city category df) = []
  /\ test_df (monthly_spend city category df) = []
  /\ forall (env : Env) (engine : Prophet.Engine),
       let outcome := run env engine city category df in
       Prophet.fit engine (train_df (monthly_spend city category df))
       = Raise "ValueError"
       /\ (exists c, snd outcome = Raise c)
       /\ (forall rows, ~ In (Out_forecast rows) (fst outcome))
       /\ (forall value, ~ In (Out_mae value) (fst outcome))
       /\ (makedirs_error env = None ->
           plot_error env "Monthly Spend" = None ->
           savefig_error env monthly_spend_plot_png = None ->
           snd outcome = Raise "ValueError").
Proof.
  intros Hnone.
  assert (monthly_spend city category df = []) as Hm.
  { unfold monthly_spend, df_city_cat. now rewrite (no_match_filter _ _ _ Hnone). }
  rewrite Hm. split; [reflexivity|]. split; [reflexivity|]. split; [reflexivity|].
  intros env engine outcome; unfold outcome; clear outcome.
  split; [reflexivity|].
  run_cells. rewrite Hm.
  change (train_df []) with (@nil Point). change (test_df []) with (@nil Point).
  change (Prophet.fit engine []) with (@Raise Prophet.Model "ValueError").
  cbv [firstn map Timestamp.min Timestamp.max].
  destruct (makedirs_error env) as [c1|].
  { split; [eauto|]. split; [absent_output|]. split; [absent_output|].
    intros; congruence. }
  destruct (plot_error env "Monthly Spend") as [c2|].
  { split; [eauto|]. split; [absent_output|]. split; [absent_output|].
    intros; congruence. }
  destruct (savefig_error env monthly_spend_plot_png) as [c3|].
  { split; [eauto|]. split; [absent_output|]. split; [absent_output|].
    intros; congruence. }
  split; [eauto|]. split; [absent_output|]. split; [absent_output|].
  reflexivity.
Qed.


(* ================================================================== *)
(** * Further properties of the notebook *)

(** Six months before a date of a proper month is strictly earlier. *)
Lemma sub_six_months_earlier (d : Timestamp) :
  1 <= Timestamp.month d <= 12 ->
  Timestamp.lt (Timestamp.sub_DateOffset_months d 6) d.
Proof.
  destruct d as [yd md dd]; simpl; intros Hm.
  unfold Timestamp.lt, Timestamp.sub_DateOffset_months,
    Timestamp.add_relativedelta_months, Timestamp.compare; simpl.
  destruct (Z.ltb_spec 12 (md + -6)); [lia|].
  destruct (Z.ltb_spec (md + -6) 1); simpl.
  - destruct (Z.compare_spec (yd - 1) yd); try lia. reflexivity.
  - rewrite Z.compare_refl.
    destruct (Z.compare_spec (md + -6) md); try lia. reflexivity.
Qed.

Lemma holdout_has_latest (series : list Point) (m : Timestamp) (p : Point) :
  (forall q, In q series -> 1 <= Timestamp.month (ds q) <= 12) ->
  Timestamp.max (map ds series) = Some m ->
  In p series -> ds p = m -> In p (test_df series).
Proof.
  intros Hv Hmax Hp E. apply test_df_In. split; [exact Hp|].
  exists (Timestamp.sub_DateOffset_months m 6). split.
  - unfold train_cutoff. now rewrite Hmax.
  - rewrite E. apply sub_six_months_earlier. rewrite <- E. now apply Hv.
Qed.

(** X1: for every non-empty series whose dates have a proper month, the
    holdout part is never empty: the cutoff is strictly before the latest
    date, so every point at the latest date is in the holdout, and every
    training point is strictly before the latest date. *)
Theorem holdout_never_empty (series : list Point) :
  series <> [] ->
  (forall p, In p series -> 1 <= Timestamp.month (ds p) <= 12) ->
  test_df series <> []
  /\ exists m, Timestamp.max (map ds series) = Some m
       /\ (forall p, In p series -> ds p = m -> In p (test_df series))
       /\ (forall p, In p (train_df series) -> Timestamp.lt (ds p) m).
Proof.
  intros Hne Hv.
  destruct (Timestamp.max (map ds series)) as [m|] eqn:Hmax.
  2:{ apply ExtremaFacts.max_None, map_eq_nil in Hmax. contradiction. }
  pose proof (ExtremaFacts.max_spec _ _ Hmax) as [Hin _].
  apply in_map_iff in Hin as (p & Ep & Hp).
  split.
  - intros Hnil.
    pose proof (holdout_has_latest series m p Hv Hmax Hp Ep) as Hin.
    rewrite Hnil in Hin. exact Hin.
  - exists m. split; [reflexivity|]. split.
    + intros q Hq Eq. now apply (holdout_has_latest series m q).
    + intros q Hq. apply train_df_In in Hq as [_ (c & Ec & Hle)].
      unfold train_cutoff in Ec. rewrite Hmax in Ec. injection Ec as <-.
      apply TimestampFacts.le_lt_trans with (Timestamp.sub_DateOffset_months m 6);
        [exact Hle|].
      apply sub_six_months_earlier. rewrite <- Ep. now apply Hv.
Qed.

(** In a run of consecutive month starts the element at position [i] is a
    month start, [i] months after the first. *)
Lemma consecutive_nth (l : list Timestamp) :
  Spec.consecutive_month_starts l ->
  forall (first : Timestamp) (i : nat) (d : Timestamp),
    hd_error l = Some first -> nth_error l i = Some d ->
    Timestamp.is_month_start d
    /\ Timestamp.month_index d = Timestamp.month_index first + Z.of_nat i.
Proof.
  induction 1 as [d0 H0|d0 e r H0 Hi Hc IH]; intros first i d Hf Hn.
  - injection Hf as <-. destruct i as [|i]; simpl in Hn.
    + injection Hn as <-. split; [exact H0|lia].
    + destruct i; discriminate.
  - injection Hf as <-. destruct i as [|i]; simpl in Hn.
    + injection Hn as <-. split; [exact H0|lia].
    + destruct (IH e i d eq_refl Hn) as [Hd Hx]. split; [exact Hd|lia].
Qed.

Lemma filter_prefix {A : Type} (f : A -> bool) (l : list A) (k : nat) :
  (forall i x, nth_error l i = Some x -> f x = (i <? k)%nat) ->
  filter f l = firstn k l.
Proof.
  revert k; induction l as [|a l IH]; intros k H.
  - now rewrite firstn_nil.
  - simpl. rewrite (H 0%nat a eq_refl).
    destruct k as [|k]; simpl.
    + apply RangeFacts.filter_none. intros x Hx.
      apply In_nth_error in Hx as [i Hi]. now rewrite (H (S i) x Hi).
    + f_equal. apply IH. intros i x Hi. now rewrite (H (S i) x Hi).
Qed.

Lemma filter_suffix {A : Type} (f : A -> bool) (l : list A) (k : nat) :
  (forall i x, nth_error l i = Some x -> f x = negb (i <? k)%nat) ->
  filter f l = skipn k l.
Proof.
  revert k; induction l as [|a l IH]; intros k H.
  - now rewrite skipn_nil.
  - simpl. rewrite (H 0%nat a eq_refl).
    destruct k as [|k]; simpl.
    + f_equal. apply RangeFacts.filter_all. intros x Hx.
      apply In_nth_error in Hx as [i Hi]. now rewrite (H (S i) x Hi).
    + apply IH. intros i x Hi. now rewrite (H (S i) x Hi).
Qed.

(** The facts about a gap-free series that the split rests on. *)
Lemma gap_free_cutoff (series : list Point) :
  Spec.consecutive_month_starts (map ds series) ->
  exists first last c,
    hd_error (map ds series) = Some first
    /\ Timestamp.max (map ds series) = Some last
    /\ Timestamp.is_month_start last
    /\ Timestamp.month_index last
       = Timestamp.month_index first + Z.of_nat (length series) - 1
    /\ train_cutoff series = Some c
    /\ Timestamp.is_month_start c
    /\ Timestamp.month_index c
       = Timestamp.month_index first + Z.of_nat (length series) - 7.
Proof.
  intros Hc.
  destruct (map ds series) as [|first rest] eqn:El; [inversion Hc|].
  rewrite <- El in Hc.
  assert (hd_error (map ds series) = Some first) as Hf by now rewrite El.
  rewrite <- El.
  destruct (Timestamp.max (map ds series)) as [last|] eqn:Hmax.
  2:{ apply ExtremaFacts.max_None in Hmax. rewrite El in Hmax. discriminate. }
  pose proof (ExtremaFacts.max_spec _ _ Hmax) as [Hin Hle].
  apply In_nth_error in Hin as [j Hj].
  destruct (consecutive_nth _ Hc first j last Hf Hj) as [Hl Hlx].
  assert (j < length (map ds series))%nat as Hjn
    by (apply nth_error_Some; rewrite Hj; discriminate).
  rewrite length_map in Hjn.
  assert (Timestamp.month_index last
          = Timestamp.month_index first + Z.of_nat (length series) - 1) as Hlast.
  { destruct (nth_error (map ds series) (length series - 1)) as [z|] eqn:Hz.
    - destruct (consecutive_nth _ Hc first _ z Hf Hz) as [Hzm Hzx].
      specialize (Hle z (nth_error_In _ _ Hz)). unfold Timestamp.le in Hle.
      rewrite TimestampFacts.compare_month_index in Hle by assumption.
      apply (proj1 (Z.compare_le_iff _ _)) in Hle. lia.
    - apply nth_error_None in Hz. rewrite length_map in Hz. lia. }
  destruct (TimestampFacts.sub_six_months last Hl) as [Hcm Hcx].
  exists first, last, (Timestamp.sub_DateOffset_months last 6).
  repeat split; try assumption; try apply Hl; try apply Hcm.
  - unfold train_cutoff. now rewrite Hmax.
  - lia.
Qed.

Lemma gap_free_split (series : list Point) :
  Spec.consecutive_month_starts (map ds series) ->
  train_df series = firstn (length series - 6) series
  /\ test_df series = skipn (length series - 6) series.
Proof.
  intros Hc.
  destruct (gap_free_cutoff series Hc)
    as (first & last & c & Hf & Hmax & Hl & Hlx & Ec & Hcm & Hcx).
  assert (forall i p, nth_error series i = Some p ->
            Timestamp.is_month_start (ds p)
            /\ Timestamp.month_index (ds p)
               = Timestamp.month_index first + Z.of_nat i) as Hnth.
  { intros i p Hp. apply (consecutive_nth _ Hc first i (ds p) Hf).
    now apply map_nth_error. }
  split.
  - unfold train_df. rewrite Ec. apply filter_prefix.
    intros i p Hp. destruct (Hnth i p Hp) as [Hpm Hpx]. simpl.
    rewrite RangeFacts.leb_month_index by assumption.
    destruct (Z.leb_spec (Timestamp.month_index (ds p)) (Timestamp.month_index c));
      destruct (Nat.ltb_spec i (length series - 6)); try reflexivity; lia.
  - unfold test_df. rewrite Ec. apply filter_suffix.
    intros i p Hp. destruct (Hnth i p Hp) as [Hpm Hpx]. simpl.
    rewrite RangeFacts.ltb_month_index by assumption.
    destruct (Z.ltb_spec (Timestamp.month_index c) (Timestamp.month_index (ds p)));
      destruct (Nat.ltb_spec i (length series - 6)); try reflexivity; lia.
Qed.

(** X2: for every gap-free series (consecutive month starts), of any
    length, the holdout part is the last six points (the whole series when
    it has fewer) and the training part is everything before them. *)
Theorem gap_free_series_split (series : list Point) :
  Spec.consecutive_month_starts (map ds series) ->
  train_df series = firstn (length series - 6) series
  /\ test_df series = skipn (length series - 6) series
  /\ length (test_df series) = Nat.min (length series) 6
  /\ length (train_df series) = (length series - 6)%nat.
Proof.
  intros Hc. destruct (gap_free_split series Hc) as [Htrain Htest].
  rewrite Htrain, Htest, length_skipn, length_firstn.
  repeat split; lia.
Qed.

Lemma insert_key_below (k : Timestamp) (l : list Timestamp) :
  Forall (Timestamp.lt k) l -> Pandas.insert_key k l = k :: l.
Proof.
  intros H. destruct l as [|h r]; [reflexivity|].
  inversion H as [|? ? Hk _]; subst. simpl.
  unfold Timestamp.lt in Hk. now rewrite Hk.
Qed.

(** Sorted distinct keys are their own group keys. *)
Lemma group_keys_sorted_id (l : list Timestamp) :
  StronglySorted Timestamp.lt l -> Pandas.group_keys l = l.
Proof.
  induction 1 as [|h r Hs IH Hh]; simpl; [reflexivity|].
  rewrite IH. now apply insert_key_below.
Qed.

Lemma sorted_map_filter {A : Type} (f : A -> Timestamp) (g : A -> bool)
    (l : list A) :
  StronglySorted Timestamp.lt (map f l) ->
  StronglySorted Timestamp.lt (map f (filter g l)).
Proof.
  induction l as [|a l IH]; simpl; intros H; [constructor|].
  inversion H as [|? ? Hs Hh]; subst.
  destruct (g a); simpl; [|auto].
  constructor; [auto|].
  rewrite Forall_forall in *. intros x Hx. apply Hh.
  apply in_map_iff in Hx as (b & <- & Hb). apply filter_In in Hb as [Hb _].
  now apply in_map.
Qed.

Lemma sorted_app (l1 l2 : list Timestamp) :
  StronglySorted Timestamp.lt l1 -> StronglySorted Timestamp.lt l2 ->
  (forall x y, In x l1 -> In y l2 -> Timestamp.lt x y) ->
  StronglySorted Timestamp.lt (l1 ++ l2).
Proof.
  induction 1 as [|h r Hs IH Hh]; simpl; intros H2 Hlt; [exact H2|].
  constructor.
  - apply IH; [exact H2|]. intros x y Hx Hy. apply Hlt; [now right|exact Hy].
  - apply Forall_app. split; [exact Hh|].
    apply Forall_forall. intros y Hy. apply Hlt; [now left|exact Hy].
Qed.

(** Month starts at increasing distances from a date are in increasing
    order. *)
Lemma following_sorted (d : Timestamp) (start n : nat) (l : list Timestamp) :
  following d (seq start n) l -> StronglySorted Timestamp.lt l.
Proof.
  revert start l; induction n as [|n IH]; intros start l [Hf Hi].
  - destruct l; [constructor|discriminate].
  - destruct l as [|a l]; [discriminate|].
    simpl in Hi. injection Hi as Ha Hl. inversion Hf as [|? ? Ham Hfl]; subst.
    constructor.
    + apply (IH (S start)). split; assumption.
    + apply Forall_forall. intros x Hx.
      assert (Timestamp.is_month_start x) as Hxm
        by (rewrite Forall_forall in Hfl; auto).
      unfold Timestamp.lt. rewrite TimestampFacts.compare_month_index by assumption.
      apply Z.compare_lt_iff.
      assert (In (Timestamp.month_index x) (map Timestamp.month_index l)) as Hix
        by now apply in_map.
      rewrite Hl in Hix. apply in_map_iff in Hix as (i & <- & Hi').
      apply in_seq in Hi'. lia.
Qed.

Lemma monthly_spend_sorted (city category : string) (df : list Transaction) :
  StronglySorted Timestamp.lt (map ds (monthly_spend city category df)).
Proof. rewrite map_ds_monthly_spend. apply PandasFacts.group_keys_sorted. Qed.

(** What a successful fit on the notebook's training frame gives. *)
Lemma fitted_on_training_frame (engine : Prophet.Engine)
    (city category : string) (df : list Transaction) (m : Prophet.Model) :
  (forall r, In r df -> Timestamp.valid (Date r)) ->
  let train := train_df (monthly_spend city category df) in
  Prophet.fit engine train = Ok m ->
  (2 <= length train)%nat
  /\ m = Prophet.mkModel (map ds train) (engine train)
  /\ StronglySorted Timestamp.lt (map ds train)
  /\ exists last_date,
       Timestamp.max (map ds train) = Some last_date
       /\ Timestamp.is_month_start last_date
       /\ map fc_ds (Prophet.predict m (Prophet.make_future_dataframe m 6))
          = map ds train ++ Prophet.future_dates last_date 6.
Proof.
  intros Hv train Hfit.
  assert (StronglySorted Timestamp.lt (map ds train)) as Hs
    by (apply sorted_map_filter, monthly_spend_sorted).
  unfold Prophet.fit in Hfit.
  destruct (Nat.ltb_spec (length train) 2) as [|Hlen]; [discriminate|].
  injection Hfit as <-. rewrite (group_keys_sorted_id _ Hs).
  split; [exact Hlen|]. split; [reflexivity|]. split; [exact Hs|].
  destruct (Timestamp.max (map ds train)) as [last_date|] eqn:Hmax.
  2:{ apply ExtremaFacts.max_None, map_eq_nil in Hmax.
      rewrite Hmax in Hlen. simpl in Hlen. lia. }
  exists last_date. split; [reflexivity|].
  split.
  - pose proof (ExtremaFacts.max_spec _ _ Hmax) as [Hin _].
    pose proof (monthly_spend_month_starts city category df Hv) as Hms.
    rewrite Forall_forall in Hms. apply Hms.
    apply in_map_iff in Hin as (p & <- & Hp). apply filter_In in Hp as [Hp _].
    now apply in_map.
  - rewrite map_fc_ds_predict. unfold Prophet.make_future_dataframe.
    cbn [Prophet.history_dates]. now rewrite Hmax.
Qed.

(** X3: for every transaction set with proper dates, every filter and
    every engine, when the fit succeeds [future_only] keeps exactly six
    forecast rows: the month starts one to six months after the last
    training date, all strictly after it. *)
Theorem horizon_follows_last_training_month (engine : Prophet.Engine)
    (city category : string) (df : list Transaction) (m : Prophet.Model) :
  (forall r, In r df -> Timestamp.valid (Date r)) ->
  let train := train_df (monthly_spend city category df) in
  Prophet.fit engine train = Ok m ->
  exists last_date,
    Timestamp.max (map ds train) = Some last_date
    /\ let horizon :=
         map fc_ds (future_only train
                      (Prophet.predict m (Prophet.make_future_dataframe m 6))) in
       length horizon = 6%nat
       /\ Forall Timestamp.is_month_start horizon
       /\ map Timestamp.month_index horizon
          = map (fun k => Timestamp.month_index last_date + Z.of_nat k)
                [1; 2; 3; 4; 5; 6]%nat
       /\ Forall (Timestamp.lt last_date) horizon.
Proof.
  intros Hv train Hfit.
  destruct (fitted_on_training_frame engine city category df m Hv Hfit)
    as (Hlen & _ & _ & last_date & Hmax & Hl & _).
  exists last_date. split; [exact Hmax|].
  destruct (horizon_of_fitted_model engine train last_date Hlen Hmax Hl)
    as (m' & Hfit' & Hh).
  fold train in Hfit. rewrite Hfit in Hfit'. injection Hfit' as <-.
  cbv zeta. fold train. rewrite Hh.
  destruct (future_dates_following last_date 6 Hl) as [[Hf Hi] Hn].
  split; [exact Hn|]. split; [exact Hf|]. split; [exact Hi|].
  apply Forall_forall. intros x Hx. apply TimestampFacts.ltb_lt.
  apply (RangeFacts.following_gt last_date x 6 _ Hl (conj Hf Hi) Hx).
Qed.

(** X4: under the same conditions the forecast table has one row per
    training point followed by six horizon rows: its first dates are the
    training dates in order, its dates are strictly increasing, and every
    row carries the engine's estimate and bounds for its date. *)
Theorem forecast_table_shape (engine : Prophet.Engine)
    (city category : string) (df : list Transaction) (m : Prophet.Model) :
  (forall r, In r df -> Timestamp.valid (Date r)) ->
  let train := train_df (monthly_spend city category df) in
  Prophet.fit engine train = Ok m ->
  let forecast := Prophet.predict m (Prophet.make_future_dataframe m 6) in
  length forecast = (length train + 6)%nat
  /\ firstn (length train) (map fc_ds forecast) = map ds train
  /\ StronglySorted Timestamp.lt (map fc_ds forecast)
  /\ (forall f, In f forecast ->
        yhat f = Prophet.est (engine train (fc_ds f))
        /\ yhat_lower f = Prophet.est_lower (engine train (fc_ds f))
        /\ yhat_upper f = Prophet.est_upper (engine train (fc_ds f))).
Proof.
  intros Hv train Hfit forecast.
  destruct (fitted_on_training_frame engine city category df m Hv Hfit)
    as (Hlen & Em & Hs & last_date & Hmax & Hl & Hd).
  fold train in Hd, Hmax, Hs, Em. fold forecast in Hd.
  destruct (future_dates_following last_date 6 Hl) as [Hfol Hn].
  split; [|split; [|split]].
  - rewrite <- (length_map fc_ds forecast), Hd, length_app, length_map, Hn.
    reflexivity.
  - rewrite Hd, <- (length_map ds train), firstn_app, Nat.sub_diag, firstn_all.
    simpl. apply app_nil_r.
  - rewrite Hd. apply sorted_app; [exact Hs|eapply following_sorted; eauto|].
    intros x y Hx Hy.
    apply TimestampFacts.le_lt_trans with last_date.
    + apply ExtremaFacts.max_spec in Hmax as [_ Hle]. now apply Hle.
    + apply TimestampFacts.ltb_lt.
      apply (RangeFacts.following_gt last_date y 6 _ Hl Hfol Hy).
  - intros f Hf. unfold forecast, Prophet.predict in Hf.
    apply in_map_iff in Hf as (d & <- & _). rewrite Em. simpl. auto.
Qed.

Lemma filter_filter_implied {A : Type} (h g : A -> bool) (l : list A) :
  (forall a, In a l -> h a = true -> g a = true) ->
  filter h (filter g l) = filter h l.
Proof.
  induction l as [|a l IH]; simpl; intros H; [reflexivity|].
  assert (filter h (filter g l) = filter h l) as IH'
    by (apply IH; intros; apply H; auto).
  destruct (g a) eqn:G; simpl.
  - now rewrite IH'.
  - destruct (h a) eqn:Ha; [|exact IH'].
    rewrite (H a (or_introl eq_refl) Ha) in G. discriminate.
Qed.

(** Forecast rows that match no holdout date do not change the join. *)
Lemma inner_join_filter (g : Forecast -> bool) (test : list Point)
    (forecast : list Forecast) :
  (forall p f, In p test -> In f forecast -> fc_ds f = ds p -> g f = true) ->
  Spec.inner_join test (filter g forecast) = Spec.inner_join test forecast.
Proof.
  intros H. unfold Spec.inner_join.
  induction test as [|p test IH]; simpl; [reflexivity|].
  rewrite IH by (intros; eapply H; eauto; now right).
  f_equal. f_equal. apply filter_filter_implied.
  intros f Hf E. apply TimestampFacts.eqb_eq in E.
  apply (H p f); auto. now left.
Qed.

(** X5: whenever the training part is not empty, the evaluation only uses
    forecast rows after the last training date: joining the holdout with
    [future_only] gives the same rows as joining it with the whole forecast
    table, and every evaluation row is dated strictly after every training
    point. *)
Theorem evaluation_ignores_fitted_history (series : list Point)
    (forecast : list Forecast) :
  train_df series <> [] ->
  eval_df (test_df series) (future_only (train_df series) forecast)
  = eval_df (test_df series) forecast
  /\ (forall row, In row (eval_df (test_df series) forecast) ->
        forall p, In p (train_df series) -> Timestamp.lt (ds p) (e_ds row)).
Proof.
  intros Hne.
  destruct (Timestamp.max (map ds (train_df series))) as [last_date|] eqn:Hmax.
  2:{ apply ExtremaFacts.max_None, map_eq_nil in Hmax. contradiction. }
  pose proof (ExtremaFacts.max_spec _ _ Hmax) as [Hin Hle].
  apply in_map_iff in Hin as (q & Eq & Hq).
  apply train_df_In in Hq as [_ (c & Ec & Hqc)].
  assert (forall p, In p (test_df series) -> Timestamp.lt last_date (ds p)) as Hlate.
  { intros p Hp. apply test_df_In in Hp as [_ (c' & Ec' & Hlt)].
    rewrite Ec in Ec'. injection Ec' as <-.
    apply TimestampFacts.le_lt_trans with c; [|exact Hlt]. now rewrite <- Eq. }
  split.
  - rewrite !eval_df_inner_join. f_equal.
    unfold future_only. apply inner_join_filter.
    intros p f Hp _ E. rewrite Hmax. simpl.
    apply TimestampFacts.ltb_lt. rewrite E. now apply Hlate.
  - intros row Hrow p Hp.
    rewrite eval_df_inner_join in Hrow.
    apply in_map_iff in Hrow as (r & <- & Hr).
    apply inner_join_In in Hr as (p' & f & Hp' & _ & _ & ->). simpl.
    apply TimestampFacts.le_lt_trans with last_date; [|now apply Hlate].
    apply Hle. now apply in_map.
Qed.

Lemma has_date_In (dates : list Timestamp) (d : Timestamp) :
  has_date dates d = true <-> In d dates.
Proof.
  unfold has_date. rewrite existsb_exists. split.
  - intros (x & Hx & E). apply TimestampFacts.eqb_eq in E. now subst.
  - intros H. exists d. split; [exact H|apply TimestampFacts.eqb_refl].
Qed.

Lemma filter_key_distinct (k : Timestamp) (dates : list Timestamp) :
  NoDup dates ->
  filter (fun d => Timestamp.eqb d k) dates
  = if has_date dates k then [k] else [].
Proof.
  induction 1 as [|d dates Hn Hnd IH]; [reflexivity|].
  unfold has_date in *. simpl.
  rewrite (TimestampFacts.eqb_sym k d).
  destruct (Timestamp.eqb d k) eqn:E; simpl.
  - apply TimestampFacts.eqb_eq in E. subst d. f_equal.
    rewrite IH. destruct (existsb (Timestamp.eqb k) dates) eqn:Ex; [|reflexivity].
    exfalso. apply Hn. now apply has_date_In.
  - exact IH.
Qed.

(** One evaluation row per holdout point whose date is in the future
    frame, in holdout order. *)
Lemma eval_df_predict (m : Prophet.Model) (future : list Timestamp)
    (test : list Point) :
  NoDup future ->
  eval_df test (Prophet.predict m future)
  = map (predicted_row m) (filter (fun p => has_date future (ds p)) test).
Proof.
  intros Hnd. rewrite eval_df_inner_join. unfold Spec.inner_join.
  induction test as [|p test IH]; simpl; [reflexivity|].
  rewrite map_app, IH. clear IH.
  assert (filter (fun f => Timestamp.eqb (fc_ds f) (ds p)) (Prophet.predict m future)
          = Prophet.predict m (filter (fun d => Timestamp.eqb d (ds p)) future))
    as ->.
  { unfold Prophet.predict. clear Hnd.
    induction future as [|d future IH]; simpl; [reflexivity|].
    destruct (Timestamp.eqb d (ds p)); simpl; now rewrite IH. }
  rewrite (filter_key_distinct _ _ Hnd).
  destruct (has_date future (ds p)); reflexivity.
Qed.

(** X6: for the tables the notebook builds, the evaluation has one row per
    holdout point whose date is in the future frame, in holdout order, with
    the holdout amount and the model's estimate for that date; the other
    holdout points are dropped; the rows' dates are strictly increasing and
    there are at most six rows. *)
Theorem evaluation_rows_of_fitted_model (engine : Prophet.Engine)
    (city category : string) (df : list Transaction) (m : Prophet.Model) :
  (forall r, In r df -> Timestamp.valid (Date r)) ->
  let series := monthly_spend city category df in
  Prophet.fit engine (train_df series) = Ok m ->
  let future := Prophet.make_future_dataframe m 6 in
  let rows := eval_df (test_df series) (Prophet.predict m future) in
  rows = map (predicted_row m)
             (filter (fun p => has_date future (ds p)) (test_df series))
  /\ StronglySorted Timestamp.lt (map e_ds rows)
  /\ (length rows <= 6)%nat.
Proof.
  intros Hv series Hfit future rows.
  destruct (notebook_tables_distinct_dates engine city category df m Hv Hfit)
    as [Htest Hfuture].
  rewrite map_fc_ds_predict in Hfuture. fold future in Hfuture.
  assert (rows = map (predicted_row m)
                     (filter (fun p => has_date future (ds p)) (test_df series)))
    as Erows by (apply eval_df_predict; exact Hfuture).
  split; [exact Erows|]. split.
  - rewrite Erows, map_map. cbn [predicted_row e_ds].
    apply sorted_map_filter, sorted_map_filter, monthly_spend_sorted.
  - rewrite Erows, length_map.
    apply Nat.le_trans with (length (test_df series)).
    + apply filter_length_le.
    + apply holdout_length_bound.
      * now apply monthly_spend_month_starts.
      * unfold series. rewrite map_ds_monthly_spend.
        apply PandasFacts.group_keys_NoDup.
Qed.

Lemma Permutation_filter_keep {A : Type} (f : A -> bool) (l l' : list A) :
  Permutation l l' -> Permutation (filter f l) (filter f l').
Proof.
  induction 1 as [|a l l' _ IH|a b l|l1 l2 l3 _ IH1 _ IH2]; simpl.
  - constructor.
  - destruct (f a); [now constructor|exact IH].
  - destruct (f a), (f b); try apply Permutation_refl. apply perm_swap.
  - now apply Permutation_trans with (filter f l2).
Qed.

Lemma exact_sum_Permutation (l l' : list Z) :
  Permutation l l' -> exact_sum l = exact_sum l'.
Proof.
  induction 1 as [| |a b l|]; simpl; try lia.
Qed.

(** Two strictly increasing lists with the same elements are equal. *)
Lemma sorted_same_elements (l1 l2 : list Timestamp) :
  StronglySorted Timestamp.lt l1 -> StronglySorted Timestamp.lt l2 ->
  (forall x, In x l1 <-> In x l2) -> l1 = l2.
Proof.
  intros H1; revert l2; induction H1 as [|a l1 Hs1 IH Ha]; intros l2 H2 E.
  - destruct l2 as [|b l2]; [reflexivity|].
    destruct (proj2 (E b) (or_introl eq_refl)).
  - destruct l2 as [|b l2]; [destruct (proj1 (E a) (or_introl eq_refl))|].
    inversion H2 as [|? ? Hs2 Hb]; subst.
    rewrite Forall_forall in Ha, Hb.
    assert (a = b) as ->.
    { destruct (proj1 (E a) (or_introl eq_refl)) as [Hab|Hab]; [now subst|].
      destruct (proj2 (E b) (or_introl eq_refl)) as [Hba|Hba]; [exact Hba|].
      exfalso. apply (TimestampFacts.lt_irrefl a).
      apply TimestampFacts.lt_trans with b; auto. }
    f_equal. apply IH; [exact Hs2|].
    intros x. split; intros Hx.
    + destruct (proj1 (E x) (or_intror Hx)) as [<-|Hx']; [|exact Hx'].
      exfalso. exact (TimestampFacts.lt_irrefl b (Ha b Hx)).
    + destruct (proj2 (E x) (or_intror Hx)) as [<-|Hx']; [|exact Hx'].
      exfalso. exact (TimestampFacts.lt_irrefl b (Hb b Hx)).
Qed.

Lemma groupby_sum_Permutation (rows rows' : list (Timestamp * Z)) :
  Permutation rows rows' -> Pandas.groupby_sum rows = Pandas.groupby_sum rows'.
Proof.
  intros Hp. unfold Pandas.groupby_sum.
  assert (Pandas.group_keys (map fst rows) = Pandas.group_keys (map fst rows'))
    as ->.
  { apply sorted_same_elements; try apply PandasFacts.group_keys_sorted.
    intros x. rewrite !PandasFacts.group_keys_In.
    split; apply Permutation_in; [|apply Permutation_sym]; now apply Permutation_map. }
  apply map_ext. intros k. f_equal.
  rewrite !PandasFacts.sum64_exact_sum. f_equal.
  apply exact_sum_Permutation, Permutation_map.
  unfold Pandas.group_rows. now apply Permutation_filter_keep.
Qed.

(** X7: the monthly series does not depend on the order of the
    transactions: any rearrangement of the rows gives the same series. *)
Theorem monthly_spend_ignores_row_order (city category : string)
    (df df' : list Transaction) :
  Permutation df df' ->
  monthly_spend city category df = monthly_spend city category df'.
Proof.
  intros Hp. unfold monthly_spend. f_equal.
  apply groupby_sum_Permutation. unfold df_city_cat.
  now apply Permutation_map, Permutation_filter_keep.
Qed.

Section RunWithoutIOFailure.
Variable engine : Prophet.Engine.
Variables city category : string.
Variable df : list Transaction.

Let train : list Point := train_df (monthly_spend city category df).
Let test : list Point := test_df (monthly_spend city category df).
Let outcome : list output * result unit := run env_ok engine city category df.

Lemma run_stops_at_fit (class : string) :
  Prophet.fit engine train = Raise class ->
  snd outcome = Raise class
  /\ files_written (fst outcome) = [monthly_spend_plot_png]
  /\ reported_mae (fst outcome) = [].
Proof.
  unfold outcome, train. intros Hfit. run_cells_env_ok. rewrite Hfit.
  repeat split.
Qed.

Lemma run_completes (m : Prophet.Model) (value : Float64.t) :
  Prophet.fit engine train = Ok m ->
  mae (eval_df test (Prophet.predict m (Prophet.make_future_dataframe m 6)))
  = Ok value ->
  snd outcome = Ok tt
  /\ files_written (fst outcome)
     = [monthly_spend_plot_png; prophet_forecast_png; prophet_components_png]
  /\ reported_mae (fst outcome) = [value].
Proof.
  unfold outcome, train, test. intros Hfit Hmae. run_cells_env_ok.
  rewrite Hfit, Hmae. repeat split.
Qed.

End RunWithoutIOFailure.

Lemma fit_short_frame (engine : Prophet.Engine) (train : list Point) :
  (length train < 2)%nat -> Prophet.fit engine train = Raise "ValueError".
Proof.
  intros H. unfold Prophet.fit.
  destruct (Nat.ltb_spec (length train) 2); [reflexivity|lia].
Qed.

Lemma gap_free_month_starts (series : list Point) :
  Spec.consecutive_month_starts (map ds series) ->
  Forall Timestamp.is_month_start (map ds series).
Proof.
  intros Hc. apply Forall_forall. intros d Hd.
  destruct (map ds series) as [|first rest] eqn:El; [destruct Hd|].
  rewrite <- El in *.
  apply In_nth_error in Hd as [i Hi].
  apply (consecutive_nth _ Hc first i d); [now rewrite El|exact Hi].
Qed.

(** On a gap-free series of more than six months, the last training date
    is the cutoff, and the six horizon dates are the holdout dates. *)
Lemma gap_free_horizon (series : list Point) :
  Spec.consecutive_month_starts (map ds series) ->
  (7 <= length series)%nat ->
  exists last_date,
    Timestamp.max (map ds (train_df series)) = Some last_date
    /\ Timestamp.is_month_start last_date
    /\ Prophet.future_dates last_date 6 = map ds (test_df series).
Proof.
  intros Hc Hlen.
  destruct (gap_free_cutoff series Hc)
    as (first & last & c & Hf & Hmax & Hl & Hlx & Ec & Hcm & Hcx).
  destruct (gap_free_split series Hc) as [Htrain Htest].
  assert (forall i p, nth_error series i = Some p ->
            Timestamp.is_month_start (ds p)
            /\ Timestamp.month_index (ds p)
               = Timestamp.month_index first + Z.of_nat i) as Hnth.
  { intros i p Hp. apply (consecutive_nth _ Hc first i (ds p) Hf).
    now apply map_nth_error. }
  exists c. split; [|split; [exact Hcm|]].
  - destruct (nth_error series (length series - 7)) as [q|] eqn:Hq.
    2:{ apply nth_error_None in Hq. lia. }
    destruct (Hnth _ q Hq) as [Hqm Hqx].
    assert (ds q = c) as Eq
      by (apply TimestampFacts.month_index_inj; try assumption; lia).
    apply ExtremaFacts.max_unique.
    + rewrite <- Eq. apply in_map. rewrite Htrain.
      apply nth_error_In with (length series - 7)%nat.
      rewrite nth_error_firstn.
      destruct (Nat.ltb_spec (length series - 7) (length series - 6)); [exact Hq|lia].
    + intros x Hx. apply in_map_iff in Hx as (p & <- & Hp).
      apply train_df_In in Hp as [_ (c' & Ec' & Hle)].
      rewrite Ec in Ec'. now injection Ec' as <-.
  - destruct (future_dates_following c 6 Hcm) as [[Hfm Hfx] Hn].
    apply month_starts_eq; [exact Hfm| |].
    + pose proof (gap_free_month_starts series Hc) as Hms.
      rewrite Forall_forall in *. intros d Hd. apply Hms.
      apply in_map_iff in Hd as (p & <- & Hp). apply filter_In in Hp as [Hp _].
      now apply in_map.
    + rewrite Hfx, Htest.
      apply nth_error_ext. intros i.
      rewrite !nth_error_map, nth_error_skipn.
      destruct (nth_error (seq 1 6) i) as [k|] eqn:Hk.
      * assert (i < length (seq 1 6))%nat as Hi
          by (apply nth_error_Some; rewrite Hk; discriminate).
        rewrite length_seq in Hi.
        rewrite nth_error_seq in Hk.
        destruct (Nat.ltb_spec i 6); [|lia]. injection Hk as <-.
        destruct (nth_error series (length series - 6 + i)) as [p|] eqn:Hp.
        2:{ apply nth_error_None in Hp. lia. }
        destruct (Hnth _ p Hp) as [_ Hpx]. cbn [option_map]. f_equal. lia.
      * apply nth_error_None in Hk. rewrite length_seq in Hk.
        destruct (nth_error series (length series - 6 + i)) as [p|] eqn:Hp;
          [|reflexivity].
        assert (length series - 6 + i < length series)%nat
          by (apply nth_error_Some; now rewrite Hp).
        lia.
Qed.

(** X11: for every transaction set whose monthly series is gap-free with
    at least eight months, and every engine: the fit succeeds, the horizon
    dates are the holdout dates, the evaluation has exactly six rows, one
    per holdout point with the model's estimate, and with no I/O failure
    the run completes. *)
Theorem gap_free_run_completes (engine : Prophet.Engine)
    (city category : string) (df : list Transaction) :
  let series := monthly_spend city category df in
  Spec.consecutive_month_starts (map ds series) ->
  (8 <= length series)%nat ->
  exists m,
    Prophet.fit engine (train_df series) = Ok m
    /\ let forecast := Prophet.predict m (Prophet.make_future_dataframe m 6) in
       map fc_ds (future_only (train_df series) forecast) = map ds (test_df series)
       /\ eval_df (test_df series) forecast
          = map (predicted_row m) (skipn (length series - 6) series)
       /\ length (eval_df (test_df series) forecast) = 6%nat
       /\ snd (run env_ok engine city category df) = Ok tt.
Proof.
  intros series Hc Hlen.
  destruct (gap_free_split series Hc) as [Htrain Htest].
  destruct (gap_free_horizon series Hc) as (last_date & Hmax & Hl & Hh); [lia|].
  assert (2 <= length (train_df series))%nat as Htl
    by (rewrite Htrain, length_firstn; lia).
  destruct (horizon_of_fitted_model engine (train_df series) last_date Htl Hmax Hl)
    as (m & Hfit & Hho).
  exists m. split; [exact Hfit|]. cbv zeta.
  assert (Forall Timestamp.is_month_start (map ds (train_df series))) as Htm.
  { pose proof (gap_free_month_starts series Hc) as Hms.
    rewrite Forall_forall in *. intros d Hd. apply Hms.
    apply in_map_iff in Hd as (p & <- & Hp). apply filter_In in Hp as [Hp _].
    now apply in_map. }
  pose proof (forecast_dates_distinct engine (train_df series) m Htm Hfit) as Hnd.
  rewrite map_fc_ds_predict in Hnd.
  assert (eval_df (test_df series)
            (Prophet.predict m (Prophet.make_future_dataframe m 6))
          = map (predicted_row m) (skipn (length series - 6) series)) as Heval.
  { rewrite (eval_df_predict m _ _ Hnd). f_equal.
    rewrite <- Htest. apply RangeFacts.filter_all.
    intros p Hp. apply has_date_In.
    assert (In (ds p) (map fc_ds (future_only (train_df series)
              (Prophet.predict m (Prophet.make_future_dataframe m 6))))) as Hin
      by (rewrite Hho, Hh; now apply in_map).
    rewrite map_fc_ds_future_only, map_fc_ds_predict in Hin.
    now apply filter_In in Hin as [Hin _]. }
  split; [now rewrite Hho|]. split; [exact Heval|].
  assert (length (eval_df (test_df series)
            (Prophet.predict m (Prophet.make_future_dataframe m 6))) = 6%nat)
    as Hsix by (rewrite Heval, length_map, length_skipn; lia).
  split; [exact Hsix|].
  destruct (mae (eval_df (test_df series)
              (Prophet.predict m (Prophet.make_future_dataframe m 6))))
    as [value|class] eqn:Hmae.
  - now destruct (run_completes engine city category df m value Hfit Hmae).
  - exfalso. rewrite eval_df_inner_join in Hmae, Hsix.
    rewrite mae_of_records in Hmae; [discriminate|].
    intros E. rewrite E in Hsix. discriminate.
Qed.

(** X12: for every transaction set whose monthly series is gap-free with
    at most seven months, the training part has at most one point, so the
    fit raises [ValueError] and, with no I/O failure, the run ends there. *)
Theorem short_gap_free_run_stops_at_fit (engine : Prophet.Engine)
    (city category : string) (df : list Transaction) :
  let series := monthly_spend city category df in
  Spec.consecutive_month_starts (map ds series) ->
  (length series <= 7)%nat ->
  (length (train_df series) <= 1)%nat
  /\ test_df series = skipn (length series - 6) series
  /\ Prophet.fit engine (train_df series) = Raise "ValueError"
  /\ snd (run env_ok engine city category df) = Raise "ValueError".
Proof.
  intros series Hc Hlen.
  destruct (gap_free_split series Hc) as [Htrain Htest].
  assert (length (train_df series) <= 1)%nat as Hshort
    by (rewrite Htrain, length_firstn; lia).
  assert (Prophet.fit engine (train_df series) = Raise "ValueError") as Hfit
    by (apply fit_short_frame; lia).
  split; [exact Hshort|]. split; [exact Htest|]. split; [exact Hfit|].
  now destruct (run_stops_at_fit engine city category df "ValueError" Hfit).
Qed.

(* ================================================================== *)
(** * The properties on the sample data *)

Import Examples.

Example series14_values :
  map y series14
  = [100; 110; 120; 130; 140; 150; 160; 170; 180; 190; 200; 210; 220; 230].
Proof. reflexivity. Qed.

Example series14_dates :
  map ds series14
  = [ Timestamp.mk 2014 1 1; Timestamp.mk 2014 2 1; Timestamp.mk 2014 3 1;
      Timestamp.mk 2014 4 1; Timestamp.mk 2014 5 1; Timestamp.mk 2014 6 1;
      Timestamp.mk 2014 7 1; Timestamp.mk 2014 8 1; Timestamp.mk 2014 9 1;
      Timestamp.mk 2014 10 1; Timestamp.mk 2014 11 1; Timestamp.mk 2014 12 1;
      Timestamp.mk 2015 1 1; Timestamp.mk 2015 2 1 ].
Proof. reflexivity. Qed.

Example series14_split :
  train_cutoff series14 = Some (Timestamp.mk 2014 8 1)
  /\ map y (train_df series14) = [100; 110; 120; 130; 140; 150; 160; 170]
  /\ map y (test_df series14) = [180; 190; 200; 210; 220; 230].
Proof. repeat split; reflexivity. Qed.

Example forecast14_dates :
  map fc_ds (future_only (train_df series14) forecast14)
  = [ Timestamp.mk 2014 9 1; Timestamp.mk 2014 10 1; Timestamp.mk 2014 11 1;
      Timestamp.mk 2014 12 1; Timestamp.mk 2015 1 1; Timestamp.mk 2015 2 1 ].
Proof. reflexivity. Qed.

(** The day is clamped when the month reached is shorter. *)
Example end_of_month_offset :
  Timestamp.sub_DateOffset_months (Timestamp.mk 2014 8 31) 6
  = Timestamp.mk 2014 2 28.
Proof. reflexivity. Qed.

(** An int64 sum wraps around. *)
Example sum64_wraps :
  Pandas.sum64 [2 ^ 63 - 1; 1] = - 2 ^ 63.
Proof. reflexivity. Qed.

(** With every step succeeding, the run reports a mean absolute error of
    330/6 = 55 on the fourteen months. *)
Example run14_reports_mae :
  snd (run env_ok flat_engine bengaluru food df14) = Ok tt
  /\ In (Out_mae (Float64.of_int 55))
        (fst (run env_ok flat_engine bengaluru food df14)).
Proof. vm_compute. intuition. Qed.

(** The mean of three times 0.1 is 0.10000000000000002, one step above
    0.1. *)
Example mean_of_three_tenths :
  tenth = Float64.div (Float64.of_int 1) (Float64.of_int 10)
  /\ Sklearn.average [tenth; tenth; tenth]
     = S754_finite false 7205759403792795 (-56).
Proof. vm_compute. split; reflexivity. Qed.

(** Nine items are not added up in order: one after the other, each
    2^-53 is lost against 1; in eight running sums they add up first. *)
Example sum_of_nine :
  let a := Float64.of_int 1 :: repeat half_step 8 in
  Numpy.accumulate Float64.zero a = Float64.of_int 1
  /\ Numpy.add_reduce a = S754_finite false 4503599627370500 (-52).
Proof. vm_compute. split; reflexivity. Qed.

(** When only the components plot cannot be written, the run ends there,
    after the mean absolute error has been printed. *)
Example components_plot_failure_keeps_mae :
  let outcome :=
    run (env_unwritable prophet_components_png) flat_engine bengaluru food df14 in
  snd outcome = Raise "PermissionError"
  /\ reported_mae (fst outcome) = [Float64.of_int 55]
  /\ files_written (fst outcome)
     = [monthly_spend_plot_png; prophet_forecast_png].
Proof. vm_compute. repeat split. Qed.

(** When the historical plot cannot be written, the run ends before the
    split. *)
Example historical_plot_failure_stops_the_run :
  let outcome :=
    run (env_unwritable monthly_spend_plot_png) flat_engine bengaluru food df14 in
  snd outcome = Raise "PermissionError"
  /\ reported_mae (fst outcome) = []
  /\ files_written (fst outcome) = [].
Proof. vm_compute. repeat split. Qed.

(** With missing months the horizon can miss the holdout altogether. *)
Example run_gaps_stops_at_mae :
  eval_df (test_df series_gaps) forecast_gaps = []
  /\ snd (run env_ok flat_engine bengaluru food df_gaps) = Raise "ValueError".
Proof. vm_compute. split; reflexivity. Qed.

(** A forecast table with a repeated date repeats the holdout row. *)
Example repeated_forecast_date :
  length (eval_df [mkPoint (Timestamp.mk 2014 9 1) 180]
                  [mkForecast (Timestamp.mk 2014 9 1) number_1 number_1 number_1;
                   mkForecast (Timestamp.mk 2014 9 1) number_2 number_2 number_2])
  = 2%nat.
Proof. reflexivity. Qed.

Lemma nowhere_matches_nothing :
  forall r, In r df14 -> ~ (City r = "Nowhere" /\ Exp_Type r = food).
Proof.
  intros r Hr [Hc _]. cbn [In df14] in Hr.
  repeat (destruct Hr as [<-|Hr]; [discriminate Hc|]). exact Hr.
Qed.

(** *** Instances *)

Lemma splitter_partitions_series_witness :
  exists m c,
    train_cutoff gapped_series = Some c
    /\ In m (map ds gapped_series)
    /\ Timestamp.is_month_start c
    /\ Timestamp.month_index c = Timestamp.month_index m - 6.
Proof.
  destruct (splitter_partitions_series gapped_series)
    as (_ & _ & _ & _ & _ & H & _).
  destruct H as (m & c & Hc & Hin & _ & _ & Hs); [discriminate|].
  exists m, c. split; [exact Hc|]. split; [exact Hin|].
  assert (Timestamp.is_month_start m) as Hm.
  { cbn [gapped_series map ds In] in Hin.
    repeat (destruct Hin as [<-|Hin]; [split; [cbn; lia|reflexivity]|]).
    destruct Hin. }
  exact (Hs Hm).
Defined.

Lemma aggregator_preserves_total_witness :
  exact_sum (map y series14)
  = exact_sum (map Amount (filter (mask bengaluru food) df14)).
Proof.
  apply (proj2 (proj2 (aggregator_preserves_total bengaluru food df14))).
  intros p Hp. vm_compute in Hp.
  repeat (destruct Hp as [<-|Hp]; [vm_compute; split; [discriminate|reflexivity]|]).
  destruct Hp.
Defined.

Lemma evaluation_join_is_inner_witness :
  (length (eval_df (test_df series14) forecast14)
   <= Nat.min (length (test_df series14)) (length forecast14))%nat.
Proof.
  apply (proj1 (proj2 (proj2 (evaluation_join_is_inner (test_df series14) forecast14))));
    vm_compute; distinct_values.
Defined.

Lemma fourteen_months_split_witness :
  length (train_df series14) = 8%nat /\ length (test_df series14) = 6%nat.
Proof.
  destruct (fourteen_months_split series14 flat_engine) as (_ & _ & Htrain & Htest & _).
  - reflexivity.
  - rewrite series14_dates.
    repeat (apply Spec.consecutive_cons;
            [split; [cbn; lia|reflexivity]|reflexivity|]).
    apply Spec.consecutive_one. split; [cbn; lia|reflexivity].
  - split; assumption.
Defined.

Lemma empty_filter_stops_at_fit_witness :
  monthly_spend "Nowhere" food df14 = []
  /\ snd (run env_ok flat_engine "Nowhere" food df14) = Raise "ValueError".
Proof.
  destruct (empty_filter_stops_at_fit "Nowhere" food df14 nowhere_matches_nothing)
    as (Hm & _ & _ & Hrun).
  destruct (Hrun env_ok flat_engine) as (_ & _ & _ & _ & Hr).
  split; [exact Hm|]. apply Hr; reflexivity.
Defined.

Lemma empty_join_raises_ValueError_witness :
  mae (eval_df (test_df series_gaps) forecast_gaps) = Raise "ValueError".
Proof.
  apply (empty_join_raises_ValueError (test_df series_gaps) forecast_gaps).
  apply (proj2 (no_overlap_empty _ _)). vm_compute. reflexivity.
Defined.


Lemma plot_failure_stops_the_run_witness :
  ~ exists value,
      In (Out_mae value)
         (fst (run env_forecast_png_unwritable flat_engine bengaluru food df14)).
Proof.
  destruct (plot_failure_stops_the_run
              env_forecast_png_unwritable flat_engine bengaluru food df14)
    as (_ & _ & H & _).
  destruct H as [Hmae _].
  { right; right; right; left. unfold save_fails. discriminate. }
  intros [value Hvalue]. exact (Hmae value Hvalue).
Defined.

Lemma holdout_at_most_six_witness :
  (length (test_df series14) <= 6)%nat.
Proof.
  apply (proj1 holdout_at_most_six series14).
  - rewrite series14_dates.
    repeat (apply Forall_cons; [split; [cbn; lia|reflexivity]|]).
    apply Forall_nil.
  - rewrite series14_dates. distinct_values.
Defined.

(** *** Where the stated behaviour is not the notebook's *)

(** No transaction of the sample is in "Nowhere": the series is empty and
    the run ends on the forecaster's [ValueError]; no [FilterEmptyError]
    is raised. *)
Lemma empty_filter_not_FilterEmptyError :
  ~ ((forall r, In r df14 -> ~ (City r = "Nowhere" /\ Exp_Type r = food)) ->
     monthly_spend "Nowhere" food df14 = []
     /\ snd (run env_ok flat_engine "Nowhere" food df14)
        = Raise "FilterEmptyError").
Proof.
  intros H. destruct (H nowhere_matches_nothing) as [_ Hr].
  vm_compute in Hr. discriminate Hr.
Qed.

(** On the series with missing months the join is empty and the metric
    call raises [ValueError], not [EvaluationOverlapError]. *)
Lemma empty_join_not_EvaluationOverlapError :
  ~ (eval_df (test_df series_gaps) forecast_gaps = [] ->
     mae (eval_df (test_df series_gaps) forecast_gaps)
     = Raise "EvaluationOverlapError").
Proof.
  intros H. assert (eval_df (test_df series_gaps) forecast_gaps = []) as E
    by (vm_compute; reflexivity).
  specialize (H E). vm_compute in H. discriminate H.
Qed.


(** When the forecast plot cannot be written, the run on the fourteen
    months ends there and reports no mean absolute error. *)
Lemma forecast_plot_failure_loses_mae :
  ~ (savefig_error env_forecast_png_unwritable prophet_forecast_png
     = Some "PermissionError" ->
     exists value,
       In (Out_mae value)
          (fst (run env_forecast_png_unwritable flat_engine bengaluru food df14))).
Proof.
  intros H. destruct (H eq_refl) as [value Hv].
  vm_compute in Hv.
  repeat (destruct Hv as [Hv|Hv]; [discriminate Hv|]). exact Hv.
Qed.

(** *** Instances of the further properties *)

Import MoreExamples.

Lemma df14_dates_valid : forall r, In r df14 -> Timestamp.valid (Date r).
Proof.
  intros r Hr. cbn [In df14] in Hr.
  repeat (destruct Hr as [<-|Hr]; [vm_compute; repeat split; discriminate|]).
  destruct Hr.
Qed.

Lemma fit14 : Prophet.fit flat_engine (train_df series14) = Ok model14.
Proof. reflexivity. Qed.

Lemma series14_gap_free : Spec.consecutive_month_starts (map ds series14).
Proof.
  rewrite series14_dates.
  repeat (apply Spec.consecutive_cons;
          [split; [cbn; lia|reflexivity]|reflexivity|]).
  apply Spec.consecutive_one. split; [cbn; lia|reflexivity].
Qed.

Lemma holdout_never_empty_witness : test_df series14 <> [].
Proof.
  destruct (holdout_never_empty series14) as [Hne _].
  - vm_compute. discriminate.
  - intros p Hp. vm_compute in Hp.
    repeat (destruct Hp as [<-|Hp]; [vm_compute; split; discriminate|]).
    destruct Hp.
  - exact Hne.
Defined.

Lemma gap_free_series_split_witness :
  length (test_df series14) = Nat.min (length series14) 6.
Proof.
  destruct (gap_free_series_split series14 series14_gap_free) as (_ & _ & H & _).
  exact H.
Defined.

Lemma horizon_follows_last_training_month_witness :
  exists last_date,
    Timestamp.max (map ds (train_df series14)) = Some last_date
    /\ length (map fc_ds (future_only (train_df series14)
                 (Prophet.predict model14
                    (Prophet.make_future_dataframe model14 6)))) = 6%nat.
Proof.
  destruct (horizon_follows_last_training_month
              flat_engine bengaluru food df14 model14 df14_dates_valid fit14)
    as (last_date & Hmax & Hlen & _).
  exists last_date. split; [exact Hmax|exact Hlen].
Defined.

Lemma forecast_table_shape_witness :
  length (Prophet.predict model14 (Prophet.make_future_dataframe model14 6))
  = (length (train_df series14) + 6)%nat.
Proof.
  destruct (forecast_table_shape
              flat_engine bengaluru food df14 model14 df14_dates_valid fit14)
    as (Hlen & _).
  exact Hlen.
Defined.

Lemma evaluation_ignores_fitted_history_witness :
  eval_df (test_df series14) (future_only (train_df series14) forecast14)
  = eval_df (test_df series14) forecast14.
Proof.
  destruct (evaluation_ignores_fitted_history series14 forecast14) as [H _].
  - vm_compute. discriminate.
  - exact H.
Defined.

Lemma evaluation_rows_of_fitted_model_witness :
  (length (eval_df (test_df series14)
             (Prophet.predict model14 (Prophet.make_future_dataframe model14 6)))
   <= 6)%nat.
Proof.
  destruct (evaluation_rows_of_fitted_model
              flat_engine bengaluru food df14 model14 df14_dates_valid fit14)
    as (_ & _ & H).
  exact H.
Defined.

Lemma monthly_spend_ignores_row_order_witness :
  monthly_spend bengaluru food df14 = monthly_spend bengaluru food (rev df14).
Proof.
  apply monthly_spend_ignores_row_order. apply Permutation_rev.
Defined.

Lemma gap_free_run_completes_witness :
  snd (run env_ok flat_engine bengaluru food df14) = Ok tt.
Proof.
  destruct (gap_free_run_completes flat_engine bengaluru food df14)
    as (m & _ & _ & _ & _ & H).
  - exact series14_gap_free.
  - vm_compute. lia.
  - exact H.
Defined.

Lemma df_short_gap_free :
  Spec.consecutive_month_starts (map ds (monthly_spend bengaluru food df_short)).
Proof.
  change (map ds (monthly_spend bengaluru food df_short))
    with [Timestamp.mk 2014 11 1; Timestamp.mk 2014 12 1; Timestamp.mk 2015 1 1].
  repeat (apply Spec.consecutive_cons;
          [split; [cbn; lia|reflexivity]|reflexivity|]).
  apply Spec.consecutive_one. split; [cbn; lia|reflexivity].
Qed.

Lemma short_gap_free_run_stops_at_fit_witness :
  snd (run env_ok flat_engine bengaluru food df_short) = Raise "ValueError".
Proof.
  destruct (short_gap_free_run_stops_at_fit flat_engine bengaluru food df_short)
    as (_ & _ & _ & H).
  - exact df_short_gap_free.
  - vm_compute. lia.
  - exact H.
Defined.
